(** * The LeNet notebook: [net], [evaluate_accuracy_gpu], [train_ch5]

    A shallow embedding of the code cells of
    [chapter_convolutional-neural-networks/lenet.ipynb].

    The notebook is Python glue over MXNet/Gluon and the course library
    [d2l].  Every call into them is an effect of the embedding: a [call] that
    an arbitrary, stateful, fallible [framework] answers.  The notebook's own
    control flow (the loops, the local variables, the accumulator arithmetic,
    the indexing and the divisions) is embedded as written.

    Python floats are read as exact rationals ([Q]); a float division whose
    divisor is zero raises [ZeroDivisionError], as in Python. *)

From Stdlib Require Import List String ZArith QArith Lia Bool Arith.
Import ListNotations.
Open Scope string_scope.
Open Scope list_scope.
Open Scope Q_scope.

Set Implicit Arguments.
Set Warnings "-register-all".

(* ================================================================== *)
(** ** The network topology (first code cell) *)
(* ================================================================== *)

(** The blocks [mxnet.gluon.nn] offers that the notebook uses, with the
    keyword arguments it passes ([None] is an argument left at its default). *)
Inductive Block : Type :=
| Conv2D (channels kernel_size padding : nat) (activation : option string)
| AvgPool2D (pool_size strides : nat)
| Dense (units : nat) (activation : option string)
| Sequential (children : list Block).

(** [net.add(b1, b2, ...)] appends the blocks to the container. *)
Definition Sequential_add (net : Block) (blocks : list Block) : Block :=
  match net with
  | Sequential children => Sequential (children ++ blocks)
  | other => other
  end.

(** [for layer in net] walks the children of the container. *)
Definition layers (net : Block) : list Block :=
  match net with
  | Sequential children => children
  | _ => []
  end.

(** [net = nn.Sequential(); net.add(...)]; [padding] defaults to 0. *)
Definition net : Block :=
  Sequential_add (Sequential [])
    [ Conv2D 6 5 2 (Some "sigmoid");
      AvgPool2D 2 2;
      Conv2D 16 5 0 (Some "sigmoid");
      AvgPool2D 2 2;
      Dense 120 (Some "sigmoid");
      Dense 84 (Some "sigmoid");
      Dense 10 None ].

(** The three kinds of layer. *)
Definition is_conv (b : Block) : bool :=
  match b with Conv2D _ _ _ _ => true | _ => false end.

Definition is_pool (b : Block) : bool :=
  match b with AvgPool2D _ _ => true | _ => false end.

Definition is_dense (b : Block) : bool :=
  match b with Dense _ _ => true | _ => false end.

(** What the spec's data model allows as a layer specification: a
    convolution with kernel size 5 and an activation, an average pooling with
    window 2 and stride 2, a dense layer. *)
Definition lenet_layer (b : Block) : bool :=
  match b with
  | Conv2D _ k _ (Some _) => Nat.eqb k 5
  | AvgPool2D p s => Nat.eqb p 2 && Nat.eqb s 2
  | Dense _ _ => true
  | _ => false
  end.

(* ================================================================== *)
(** ** Python values and errors, and the library objects *)
(* ================================================================== *)

(** [mxnet.Context]: [cpu(i)], [gpu(i)]. *)
Inductive Context : Type := cpu (device_id : nat) | gpu (device_id : nat).

(** [mxnet.init]: the default initializer, and [init.Xavier()]. *)
Inductive Initializer : Type := Uniform | Xavier.

(** The built-in exceptions the notebook's own expressions can raise. *)
Inductive pyerr : Type :=
| ZeroDivisionError
| IndexError
| UnboundLocalError (name : string).

(** An [int] where a float is expected. *)
Definition of_nat (n : nat) : Q := inject_Z (Z.of_nat n).

(** Modelled from the spec: [d2l.Accumulator], which is not part of the
    notebook; "mutable running sums", one per slot, that start at zero and
    to which [add] adds its arguments slot by slot. *)
Record Accumulator : Type := { data : list Q }.

Definition Accumulator_new (n : nat) : Accumulator :=
  {| data := repeat 0 n |}.

Definition add (m : Accumulator) (args : list Q) : Accumulator :=
  {| data := map (fun ab => fst ab + snd ab) (combine (data m) args) |}.

(** Modelled from the spec: [d2l.Timer], which is not part of the notebook;
    "a timer" that records the length of every started and stopped
    interval and sums them. *)
Record Timer : Type := { times : list Q; start_time : Q }.

(** Python's [sum]: left to right, from 0. *)
Definition sum_floats (l : list Q) : Q := fold_left Qplus l 0.

Definition timer_sum (t : Timer) : Q := sum_floats (times t).

(* ================================================================== *)
(** ** The framework and the programs that call it *)
(* ================================================================== *)

Section Notebook.

(** The framework's object types: arrays, parameters, trainers, losses,
    plots, data loaders, and what it raises. *)
Context {NDArray Param Trainer Loss Animator DataIter FwExn : Type}.

(** [a.shape] *)
Variable shape : NDArray -> list nat.

(** [a.size] is the product of the shape. *)
Definition size (a : NDArray) : nat := fold_right Nat.mul 1%nat (shape a).

(** What [print] is given. *)
Inductive pyval : Type :=
| PStr (s : string)
| PName (layer : Block)            (* layer.name *)
| PShape (s : list nat)
| PFloat (q : Q)
| PCtx (c : Context).

(** The argument of a [print]. *)
Inductive line : Type :=
| Args (args : list pyval)                       (* print(a, b, c) *)
| Format (fmt : string) (args : list pyval).     (* print(fmt % (a, b, c)) *)

(** The calls the notebook makes into MXNet, d2l and the Python runtime,
    indexed by the type of what they return.

    - [Forward] and [LossCall] tell whether they are made under
      [with autograd.record()]; the scope itself makes no call: leaving it,
      normally or by an exception, restores the mode and lets the exception
      through.
    - [Iter] is one [for] pass over a data loader: the loader hands over the
      batches of the pass, a finite list, which need not be the same at the
      next pass.
    - [SumScalar] is [l.sum()] as the accumulator takes it, a float.
    - [SetNp], [LoadDataFashionMnist] and [TryGpu] are the calls the cells
      make outside the two functions: [npx.set_np()],
      [d2l.load_data_fashion_mnist(batch_size=...)], which returns the two
      loaders, and [d2l.try_gpu()]. *)
Inductive call : Type -> Type :=
| RandomUniform (sz : list nat) : call NDArray
| Initialize (b : Block) (force_reinit : bool) (ctx : option Context)
             (init : option Initializer) : call unit
| CollectParams (b : Block) : call (list (string * Param))
| ListCtx (p : Param) : call (list Context)
| AsInContext (a : NDArray) (ctx : Context) : call NDArray
| Forward (b : Block) (X : NDArray) (recording : bool) : call NDArray
| SoftmaxCrossEntropyLoss : call Loss
| LossCall (loss : Loss) (y_hat y : NDArray) (recording : bool) : call NDArray
| Backward (l : NDArray) : call unit
| NewTrainer (params : list (string * Param)) (optimizer : string)
             (optimizer_params : list (string * Q)) : call Trainer
| Step (t : Trainer) (batch_size : nat) : call unit
| SumScalar (l : NDArray) : call Q               (* float(l.sum()) *)
| Accuracy (y_hat y : NDArray) : call Q          (* d2l.accuracy *)
| Iter (it : DataIter) : call (list (NDArray * NDArray))
| Len (it : DataIter) : call nat
| TimeTime : call Q                                  (* time.time() *)
| NewAnimator (xlabel : string) (xlim : list nat) (legend : list string)
  : call Animator
| AnimatorAdd (a : Animator) (x : Q) (y : list (option Q)) : call unit
| PyPrint (l : line) : call unit
| SetNp : call unit
| LoadDataFashionMnist (batch_size : nat) : call (DataIter * DataIter)
| TryGpu : call Context.

(** A program: a result, a raise, or a call and what follows it. *)
Inductive prog (A : Type) : Type :=
| Ret (a : A)
| Raise (e : pyerr)
| Do (T : Type) (c : call T) (k : T -> prog A).

Arguments Ret {A} a.

Arguments Raise {A} e.

Arguments Do {A T} c k.

Fixpoint bind {A B : Type} (m : prog A) (f : A -> prog B) : prog B :=
  match m with
  | Ret a => f a
  | Raise e => Raise e
  | Do c k => Do c (fun t => bind (k t) f)
  end.

(** A call, for its result. *)
Definition do_call {T : Type} (c : call T) : prog T := Do c (fun t => Ret t).

Notation "x <- m ;; k" := (bind m (fun x => k))
  (at level 61, m at next level, right associativity).

Notation "m ;;; k" := (bind m (fun _ => k))
  (at level 61, right associativity).

(** [for x in xs: st = body(st, x)] *)
Fixpoint for_each {A S : Type} (xs : list A) (body : S -> A -> prog S)
         (st : S) : prog S :=
  match xs with
  | [] => Ret st
  | x :: rest => st' <- body st x ;; for_each rest body st'
  end.

(** [for i, x in enumerate(xs)], counting from [i]. *)
Fixpoint for_enumerate {A S : Type} (i : nat) (xs : list A)
         (body : S -> nat -> A -> prog S) (st : S) : prog S :=
  match xs with
  | [] => Ret st
  | x :: rest => st' <- body st i x ;; for_enumerate (Datatypes.S i)
      rest body st'
  end.

(** [l[i]] *)
Definition index {A : Type} (l : list A) (i : nat) : prog A :=
  match nth_error l i with
  | Some v => Ret v
  | None => Raise IndexError
  end.

(** [a / b] on floats *)
Definition truediv (a b : Q) : prog Q :=
  if Qeq_bool b 0 then Raise ZeroDivisionError else Ret (a / b).

(** Reading a local variable that an earlier statement may not have
    assigned. *)
Definition read {A : Type} (name : string) (v : option A) : prog A :=
  match v with
  | Some a => Ret a
  | None => Raise (UnboundLocalError name)
  end.

(** [metric[i]] *)
Definition getitem (m : Accumulator) (i : nat) : prog Q := index (data m) i.

(** [d2l.Timer()] starts the timer; [start] and [stop] read the clock. *)
Definition Timer_new : prog Timer :=
  t <- do_call TimeTime ;; Ret {| times := []; start_time := t |}.

Definition timer_start (tm : Timer) : prog Timer :=
  t <- do_call TimeTime ;; Ret {| times := times tm; start_time := t |}.

Definition timer_stop (tm : Timer) : prog Timer :=
  t <- do_call TimeTime ;;
  Ret {| times := times tm ++ [t - start_time tm];
         start_time := start_time tm |}.

(* ================================================================== *)
(** ** The shape-inspection cell *)
(* ================================================================== *)

(** [X = np.random.uniform(size=(1, 1, 28, 28)); net.initialize();
    for layer in net: X = layer(X); print(layer.name, 'output shape:\t',
    X.shape)] *)
Definition inspect_layer (X : NDArray) (layer : Block) : prog NDArray :=
  X <- do_call (Forward layer X false) ;;
  do_call (PyPrint (Args [PName layer; PStr "output shape:\t";
                          PShape (shape X)])) ;;;
  Ret X.

Definition shape_inspection (net : Block) : prog NDArray :=
  X <- do_call (RandomUniform [1; 1; 28; 28]%nat) ;;
  do_call (Initialize net false None None) ;;;
  for_each (layers net) inspect_layer X.

(* ================================================================== *)
(** ** [evaluate_accuracy_gpu] *)
(* ================================================================== *)

(** The body of [for X, y in data_iter]. *)
Definition evaluate_batch (net : Block) (ctx : Context)
           (metric : Accumulator) (b : NDArray * NDArray)
  : prog Accumulator :=
  let '(X, y) := b in
  X <- do_call (AsInContext X ctx) ;;
  y <- do_call (AsInContext y ctx) ;;
  y_hat <- do_call (Forward net X false) ;;
  acc <- do_call (Accuracy y_hat y) ;;
  Ret (add metric [acc; of_nat (size y)]).

(** [list(net.collect_params().values())[0].list_ctx()[0]] *)
Definition first_param_ctx (net : Block) : prog Context :=
  params <- do_call (CollectParams net) ;;
  p <- index (map snd params) 0 ;;
  ctxs <- do_call (ListCtx p) ;;
  index ctxs 0.

(** [if not ctx: ctx = ...]: the device given, or the first parameter's. *)
Definition pick_device (net : Block) (ctx : option Context) : prog Context :=
  match ctx with
  | Some c => Ret c
  | None => first_param_ctx net
  end.

(** [def evaluate_accuracy_gpu(net, data_iter, ctx=None)] *)
Definition evaluate_accuracy_gpu (net : Block) (data_iter : DataIter)
           (ctx : option Context) : prog Q :=
  ctx <- pick_device net ctx ;;
  let metric := Accumulator_new 2 in
  batches <- do_call (Iter data_iter) ;;
  metric <- for_each batches (evaluate_batch net ctx) metric ;;
  m0 <- getitem metric 0 ;;
  m1 <- getitem metric 1 ;;
  truediv m0 m1.

(* ================================================================== *)
(** ** [train_ch5] *)
(* ================================================================== *)

(** The local variables of [train_ch5] that the loops assign; [None] is a
    name no statement has assigned yet. *)
Record locals : Type := {
  metric : option Accumulator;
  timer : Timer;
  train_loss : option Q;
  train_acc : option Q;
  test_acc : option Q }.

Section TrainCh5.

Variables (net : Block) (train_iter test_iter : DataIter)
          (num_epochs : nat) (lr : Q) (ctx : Context).

(** The body of [for i, (X, y) in enumerate(train_iter)].  The calls
    made under [with autograd.record()] carry [recording = true]. *)
Definition train_batch (loss : Loss) (trainer : Trainer)
           (animator : Animator) (epoch : nat)
           (st : locals) (i : nat) (b : NDArray * NDArray) : prog locals :=
  let '(X, y) := b in
  tm <- timer_start (timer st) ;;
  X <- do_call (AsInContext X ctx) ;;
  y <- do_call (AsInContext y ctx) ;;
  y_hat <- do_call (Forward net X true) ;;
  l <- do_call (LossCall loss y_hat y true) ;;
  do_call (Backward l) ;;;
  n <- index (shape X) 0 ;;
  do_call (Step trainer n) ;;;
  m <- read "metric" (metric st) ;;
  l_sum <- do_call (SumScalar l) ;;
  acc <- do_call (Accuracy y_hat y) ;;
  n <- index (shape X) 0 ;;
  let m := add m [l_sum; acc; of_nat n] in
  tm <- timer_stop tm ;;
  m0 <- getitem m 0 ;;
  m2 <- getitem m 2 ;;
  loss_rate <- truediv m0 m2 ;;
  m1 <- getitem m 1 ;;
  m2 <- getitem m 2 ;;
  acc_rate <- truediv m1 m2 ;;
  (if ((i + 1) mod 50 =? 0)%nat
   then len <- do_call (Len train_iter) ;;
        frac <- truediv (of_nat i) (of_nat len) ;;
        do_call (AnimatorAdd animator (of_nat epoch + frac)
                             [Some loss_rate; Some acc_rate; None])
   else Ret tt) ;;;
  Ret {| metric := Some m; timer := tm;
         train_loss := Some loss_rate; train_acc := Some acc_rate;
         test_acc := test_acc st |}.

(** The body of [for epoch in range(num_epochs)]. *)
Definition train_epoch (loss : Loss) (trainer : Trainer)
           (animator : Animator) (st : locals) (epoch : nat)
  : prog locals :=
  let st := {| metric := Some (Accumulator_new 3); timer := timer st;
               train_loss := train_loss st; train_acc := train_acc st;
               test_acc := test_acc st |} in
  batches <- do_call (Iter train_iter) ;;
  st <- for_enumerate 0 batches
          (train_batch loss trainer animator epoch) st ;;
  acc <- evaluate_accuracy_gpu net test_iter None ;;
  do_call (AnimatorAdd animator (of_nat (epoch + 1))
                       [None; None; Some acc]) ;;;
  Ret {| metric := metric st; timer := timer st;
         train_loss := train_loss st; train_acc := train_acc st;
         test_acc := Some acc |}.

(** [metric[2]*num_epochs/timer.sum()] *)
Definition examples_per_sec (st : locals) : prog Q :=
  m <- read "metric" (metric st) ;;
  m2 <- getitem m 2 ;;
  truediv (m2 * of_nat num_epochs) (timer_sum (timer st)).

(** The two [print] statements that end [train_ch5]. *)
Definition train_summary (st : locals) : prog unit :=
  loss_rate <- read "train_loss" (train_loss st) ;;
  acc_rate <- read "train_acc" (train_acc st) ;;
  test_rate <- read "test_acc" (test_acc st) ;;
  do_call (PyPrint (Format "loss %.3f, train acc %.3f, test acc %.3f"
                           [PFloat loss_rate; PFloat acc_rate;
                            PFloat test_rate])) ;;;
  throughput <- examples_per_sec st ;;
  do_call (PyPrint (Format "%.1f exampes/sec on %s"
                           [PFloat throughput; PCtx ctx])).

(** What precedes the epoch loop. *)
Definition train_setup : prog (Loss * Trainer * Animator * locals) :=
  do_call (Initialize net true (Some ctx) (Some Xavier)) ;;;
  loss <- do_call SoftmaxCrossEntropyLoss ;;
  params <- do_call (CollectParams net) ;;
  trainer <- do_call (NewTrainer params "sgd" [("learning_rate", lr)]) ;;
  animator <- do_call (NewAnimator "epoch" [0; num_epochs]%nat
                         ["train loss"; "train acc"; "test acc"]) ;;
  tm <- Timer_new ;;
  Ret (loss, trainer, animator,
       {| metric := None; timer := tm; train_loss := None;
          train_acc := None; test_acc := None |}).

(** [def train_ch5(net, train_iter, test_iter, num_epochs, lr, ctx)] *)
Definition train_ch5 : prog unit :=
  su <- train_setup ;;
  let '(loss, trainer, animator, st) := su in
  st <- for_each (seq 0 num_epochs)
          (train_epoch loss trainer animator) st ;;
  train_summary st.

End TrainCh5.

(* ================================================================== *)
(** ** Running a program against the framework *)
(* ================================================================== *)

(** The framework: its state, and how it answers a call in a state, by a
    result or by an exception, and the state it is left in. *)
Context {World : Type}.
Variable framework : forall T : Type, call T -> World -> (FwExn + T) * World.

(** What a function raises. *)
Inductive exn : Type :=
| Framework (e : FwExn)
| Python (e : pyerr).

(** How a function ends. *)
Inductive outcome (A : Type) : Type :=
| Ok (a : A)
| Err (e : exn).

Arguments Ok {A} a.

Arguments Err {A} e.

(** A call as it happened: what was asked and what came back. *)
Record event : Type := Ev { ev_type : Type;
                            ev_call : call ev_type;
                            ev_resp : FwExn + ev_type }.

Definition returned {T : Type} (c : call T) (v : T) : event := Ev c (inr v).

Definition raised {T : Type} (c : call T) (e : FwExn) : event := Ev c (inl e).

Definition failure (e : event) : option FwExn :=
  match ev_resp e with inl x => Some x | inr _ => None end.

(** Running a program: how it ends, the state the framework is left in,
    and the calls made, in order.  The first call that fails ends it. *)
Fixpoint run {A : Type} (p : prog A) (w : World)
  : outcome A * World * list event :=
  match p with
  | Ret a => (Ok a, w, [])
  | Raise e => (Err (Python e), w, [])
  | Do c k =>
      match framework c w with
      | (inl e, w') => (Err (Framework e), w', [raised c e])
      | (inr v, w') =>
          let '(r, w'', t) := run (k v) w' in (r, w'', returned c v :: t)
      end
  end.

(* ================================================================== *)
(** ** What a completed run saw *)
(* ================================================================== *)

(** What one pass of the evaluation loop saw. *)
Record eval_step : Type := {
  e_X : NDArray;          (* the batch, as the iterator yields it *)
  e_y : NDArray;
  e_X_dev : NDArray;      (* the batch, as moved to the device *)
  e_y_dev : NDArray;
  e_y_hat : NDArray;      (* net(X) *)
  e_correct : Q }.        (* d2l.accuracy(net(X), y) *)

Definition e_batch (s : eval_step) : NDArray * NDArray := (e_X s, e_y s).

Definition eval_step_events (net : Block) (dev : Context) (s : eval_step)
  : list event :=
  [ returned (AsInContext (e_X s) dev) (e_X_dev s);
    returned (AsInContext (e_y s) dev) (e_y_dev s);
    returned (Forward net (e_X_dev s) false) (e_y_hat s);
    returned (Accuracy (e_y_hat s) (e_y_dev s)) (e_correct s) ].

Definition e_examples (s : eval_step) : Q := of_nat (size (e_y_dev s)).

(** Which device the batches go to, and the calls made to find it. *)
Inductive device_choice (net : Block)
  : option Context -> Context -> list event -> Prop :=
| ctx_given (dev : Context) : device_choice net (Some dev) dev []
| ctx_of_first_param (params : list (string * Param)) (p : Param)
                     (ctxs : list Context) (dev : Context) :
    nth_error (map snd params) 0 = Some p ->
    nth_error ctxs 0 = Some dev ->
    device_choice net None dev
      [ returned (CollectParams net) params; returned (ListCtx p) ctxs ].

Section RunRecords.

Variables (net : Block) (train_iter test_iter : DataIter) (ctx : Context).
Variables (loss : Loss) (trainer : Trainer) (animator : Animator).

(** What one pass of the batch loop saw. *)
Record train_step : Type := {
  t_index : nat;            (* i *)
  t_X : NDArray;            (* the batch, as the iterator yields it *)
  t_y : NDArray;
  t_X_dev : NDArray;        (* the batch, as moved to ctx *)
  t_y_dev : NDArray;
  t_y_hat : NDArray;        (* net(X) *)
  t_l : NDArray;            (* loss(y_hat, y) *)
  t_n : nat;                (* X.shape[0] *)
  t_l_sum : Q;              (* l.sum() *)
  t_acc : Q;                (* d2l.accuracy(y_hat, y) *)
  t_start : Q;              (* the clock at timer.start() *)
  t_stop : Q;               (* the clock at timer.stop() *)
  t_loss_rate : Q;          (* train_loss after the batch *)
  t_acc_rate : Q;           (* train_acc after the batch *)
  t_len : nat }.            (* len(train_iter), where it is read *)

Definition t_batch (s : train_step) : NDArray * NDArray := (t_X s, t_y s).

Definition t_examples (s : train_step) : Q := of_nat (t_n s).

Definition t_elapsed (s : train_step) : Q := t_stop s - t_start s.

(** [if (i+1) % 50 == 0: animator.add(...)] *)
Definition plot_events (epoch : nat) (s : train_step) : list event :=
  if ((t_index s + 1) mod 50 =? 0)%nat
  then [ returned (Len train_iter) (t_len s);
         returned (AnimatorAdd animator
                     (of_nat epoch + of_nat (t_index s) / of_nat (t_len s))
                     [Some (t_loss_rate s); Some (t_acc_rate s); None]) tt ]
  else [].

Definition train_step_events (epoch : nat) (s : train_step) : list event :=
  [ returned TimeTime (t_start s);
    returned (AsInContext (t_X s) ctx) (t_X_dev s);
    returned (AsInContext (t_y s) ctx) (t_y_dev s);
    returned (Forward net (t_X_dev s) true) (t_y_hat s);
    returned (LossCall loss (t_y_hat s) (t_y_dev s) true) (t_l s);
    returned (Backward (t_l s)) tt;
    returned (Step trainer (t_n s)) tt;
    returned (SumScalar (t_l s)) (t_l_sum s);
    returned (Accuracy (t_y_hat s) (t_y_dev s)) (t_acc s);
    returned TimeTime (t_stop s) ]
  ++ plot_events epoch s.

(** The batch's first dimension is what the optimizer step is given. *)
Definition step_sized (s : train_step) : Prop :=
  nth_error (shape (t_X_dev s)) 0 = Some (t_n s).

(** [train_loss] and [train_acc] are the rates of the accumulator. *)
Definition rates_of (sums : list Q) (st : locals) : Prop :=
  exists a b c,
    sums = [a; b; c] /\ Qeq_bool c 0 = false /\
    train_loss st = Some (a / c) /\ train_acc st = Some (b / c).

Definition t_add (m : Accumulator) (s : train_step) : Accumulator :=
  add m [t_l_sum s; t_acc s; t_examples s].

(** What one pass of the epoch loop saw. *)
Record epoch_run : Type := {
  ep_index : nat;                 (* epoch *)
  ep_steps : list train_step;     (* the training batches *)
  ep_dev : Context;               (* where the test batches went *)
  ep_lookup : list event;         (* the calls that found that device *)
  ep_eval : list eval_step;       (* the test batches *)
  ep_test_acc : Q }.              (* test_acc *)

Definition train_events (ep : epoch_run) : list event :=
  returned (Iter train_iter) (map t_batch (ep_steps ep))
  :: flat_map (train_step_events (ep_index ep)) (ep_steps ep).

Definition test_events (ep : epoch_run) : list event :=
  (ep_lookup ep
   ++ returned (Iter test_iter) (map e_batch (ep_eval ep))
   :: flat_map (eval_step_events net (ep_dev ep)) (ep_eval ep))
  ++ [ returned (AnimatorAdd animator (of_nat (ep_index ep + 1))
                   [None; None; Some (ep_test_acc ep)]) tt ].

Definition epoch_events (ep : epoch_run) : list event :=
  train_events ep ++ test_events ep.

(** The sums of an epoch: loss, correct predictions, examples. *)
Definition ep_loss_sum (ep : epoch_run) : Q :=
  sum_floats (map t_l_sum (ep_steps ep)).

Definition ep_acc_sum (ep : epoch_run) : Q :=
  sum_floats (map t_acc (ep_steps ep)).

Definition ep_examples (ep : epoch_run) : Q :=
  sum_floats (map t_examples (ep_steps ep)).

Definition ep_sums (ep : epoch_run) : list Q :=
  [ep_loss_sum ep; ep_acc_sum ep; ep_examples ep].

Definition ep_times (ep : epoch_run) : list Q :=
  map t_elapsed (ep_steps ep).

(** How the values of an epoch hang together. *)
Record epoch_ok (ep : epoch_run) : Prop := {
  ok_indices : map t_index (ep_steps ep) = seq 0 (List.length (ep_steps ep));
  ok_sized : Forall step_sized (ep_steps ep);
  ok_rates : ep_steps ep <> [] -> Qeq_bool (ep_examples ep) 0 = false;
  ok_device : device_choice net None (ep_dev ep) (ep_lookup ep);
  ok_examples :
    Qeq_bool (sum_floats (map e_examples (ep_eval ep))) 0 = false;
  ok_test_acc :
    ep_test_acc ep = sum_floats (map e_correct (ep_eval ep))
                     / sum_floats (map e_examples (ep_eval ep)) }.

(** What an epoch leaves in [train_loss] / [train_acc]: its own rate
    when it processed a batch, and what it found there when not. *)
Definition rate_after (total : epoch_run -> Q) (before : option Q)
           (ep : epoch_run) : option Q :=
  match ep_steps ep with
  | [] => before
  | _ => Some (total ep / ep_examples ep)
  end.

Definition all_times (eps : list epoch_run) : list Q :=
  flat_map ep_times eps.

End RunRecords.

Section SetupAndSummary.

Variables (net : Block) (num_epochs : nat) (lr : Q) (ctx : Context).

(** The calls before the epoch loop, and the two [print] calls after it. *)
Definition setup_events (loss : Loss) (params : list (string * Param))
           (trainer : Trainer) (animator : Animator) (t0 : Q)
  : list event :=
  [ returned (Initialize net true (Some ctx) (Some Xavier)) tt;
    returned SoftmaxCrossEntropyLoss loss;
    returned (CollectParams net) params;
    returned (NewTrainer params "sgd" [("learning_rate", lr)]) trainer;
    returned (NewAnimator "epoch" [0; num_epochs]%nat
                          ["train loss"; "train acc"; "test acc"]) animator;
    returned TimeTime t0 ].

Definition summary_events (loss_rate acc_rate test_rate throughput : Q)
  : list event :=
  [ returned (PyPrint (Format "loss %.3f, train acc %.3f, test acc %.3f"
                              [PFloat loss_rate; PFloat acc_rate;
                               PFloat test_rate])) tt;
    returned (PyPrint (Format "%.1f exampes/sec on %s"
                              [PFloat throughput; PCtx ctx])) tt ].

End SetupAndSummary.

(** The last of a list, as the loop variable holds it after the loop. *)
Definition last_of (A B : Type) (f : A -> B) (l : list A) : option B :=
  fold_left (fun _ x => Some (f x)) l None.

(** The last epoch that processed a batch. *)
Definition pick_trained (cur : option epoch_run) (ep : epoch_run)
  : option epoch_run :=
  match ep_steps ep with
  | [] => cur
  | _ => Some ep
  end.

Definition last_trained (eps : list epoch_run) : option epoch_run :=
  fold_left pick_trained eps None.

Definition ep_rate (total : epoch_run -> Q) (ep : epoch_run) : Q :=
  total ep / ep_examples ep.

(** The examples all epochs processed, per second of measured time. *)
Definition overall_rate (eps : list epoch_run) : Q :=
  sum_floats (map ep_examples eps) / sum_floats (all_times eps).

(** What one pass of the shape-inspection loop saw. *)
Record layer_step : Type := {
  s_layer : Block;
  s_in : NDArray;       (* X before the layer *)
  s_out : NDArray }.    (* layer(X) *)

Definition layer_print (s : layer_step) : line :=
  Args [PName (s_layer s); PStr "output shape:\t"; PShape (shape (s_out s))].

Definition layer_step_events (s : layer_step) : list event :=
  [ returned (Forward (s_layer s) (s_in s) false) (s_out s);
    returned (PyPrint (layer_print s)) tt ].

(** Each layer is given what the layer before it returned. *)
Fixpoint chained (x : NDArray) (steps : list layer_step) (x' : NDArray)
  : Prop :=
  match steps with
  | [] => x' = x
  | s :: rest => s_in s = x /\ chained (s_out s) rest x'
  end.

(* ================================================================== *)
(** ** Reading a trace *)
(* ================================================================== *)

(** [trainer.step(...)], [l.backward()] *)
Definition is_step (e : event) : bool :=
  match ev_call e with Step _ _ => true | _ => false end.

Definition is_backward (e : event) : bool :=
  match ev_call e with Backward _ => true | _ => false end.

(** [animator.add(epoch+1, (None, None, test_acc))] *)
Definition is_test_record (e : event) : bool :=
  match ev_call e with
  | AnimatorAdd _ _ [None; None; Some _] => true
  | _ => false
  end.

(** How many of the calls made are of a kind. *)
Definition count (p : event -> bool) (t : list event) : nat :=
  List.length (filter p t).

(** The lines printed, in order. *)
Definition printed (t : list event) : list line :=
  flat_map (fun e => match ev_call e with PyPrint l => [l] | _ => [] end) t.

(** What was plotted, in order: the abscissa and the three curves. *)
Definition plotted (t : list event) : list (Q * list (option Q)) :=
  flat_map (fun e => match ev_call e with
                     | AnimatorAdd _ x y => [(x, y)]
                     | _ => []
                     end) t.

(** The batch sizes the optimizer steps were given, in order. *)
Definition step_sizes (t : list event) : list nat :=
  flat_map (fun e => match ev_call e with Step _ n => [n] | _ => [] end) t.

(** What the passes over the selected iterators yielded, in order. *)
Definition passes (sel : DataIter -> bool) (t : list event)
  : list (list (NDArray * NDArray)) :=
  flat_map
    (fun e =>
       match ev_call e in call T
             return FwExn + T -> list (list (NDArray * NDArray)) with
       | Iter it => fun r => match r with
                             | inr bs => if sel it then [bs] else []
                             | inl _ => []
                             end
       | _ => fun _ => []
       end (ev_resp e)) t.

(** The clock readings, in order. *)
Definition clock_readings (t : list event) : list Q :=
  flat_map
    (fun e =>
       match ev_call e in call T return FwExn + T -> list Q with
       | TimeTime => fun r => match r with inr q => [q] | inl _ => [] end
       | _ => fun _ => []
       end (ev_resp e)) t.

(** The intervals between a start reading and the next stop reading. *)
Fixpoint intervals (l : list Q) : list Q :=
  match l with
  | start :: stop :: rest => (stop - start) :: intervals rest
  | _ => []
  end.

(** What the timer of [train_ch5] measured: [d2l.Timer()] reads the clock
    once, and every batch reads it at [start] and at [stop]. *)
Definition measured_time (t : list event) : Q :=
  sum_floats (intervals (tl (clock_readings t))).

(** The numbers on a printed line. *)
Definition floats_of (l : line) : list Q :=
  flat_map (fun v => match v with PFloat q => [q] | _ => [] end)
           match l with Args a => a | Format _ a => a end.

(** More kinds of call: [print], [net.initialize], [list_ctx], and
    [animator.add] with the two training rates. *)
Definition is_print (e : event) : bool :=
  match ev_call e with PyPrint _ => true | _ => false end.

Definition is_initialize (e : event) : bool :=
  match ev_call e with Initialize _ _ _ _ => true | _ => false end.

Definition is_list_ctx (e : event) : bool :=
  match ev_call e with ListCtx _ => true | _ => false end.

(** The two calls that consult the parameters: [net.collect_params()]
    and [list_ctx()]. *)
Definition is_param_lookup (e : event) : bool :=
  match ev_call e with
  | CollectParams _ | ListCtx _ => true
  | _ => false
  end.


Definition is_train_record (e : event) : bool :=
  match ev_call e with
  | AnimatorAdd _ _ [Some _; Some _; None] => true
  | _ => false
  end.

(** The calls an evaluation is made of: the device lookup, a pass over a
    loader, moving an array, the network outside [autograd.record], and
    [d2l.accuracy]. *)
Definition is_inference (e : event) : bool :=
  match ev_call e with
  | CollectParams _ | ListCtx _ | Iter _ | AsInContext _ _ | Accuracy _ _ =>
      true
  | Forward _ _ recording => negb recording
  | _ => false
  end.

(** Where the arrays were moved, in order. *)
Definition devices (t : list event) : list Context :=
  flat_map (fun e => match ev_call e with
                     | AsInContext _ c => [c]
                     | _ => []
                     end) t.

(** What [d2l.accuracy] returned, with the size of the labels it was
    given, in order. *)
Definition accuracy_results (t : list event) : list (Q * nat) :=
  flat_map
    (fun e =>
       match ev_call e in call T return FwExn + T -> list (Q * nat) with
       | Accuracy _ y => fun r => match r with
                                  | inr q => [(q, size y)]
                                  | inl _ => []
                                  end
       | _ => fun _ => []
       end (ev_resp e)) t.

(** A count of correct predictions: between 0 and the number of labels. *)
Definition is_count (p : Q * nat) : bool :=
  Qle_bool 0 (fst p) && Qle_bool (fst p) (of_nat (snd p)).

(* ================================================================== *)
(** ** What a program can call *)
(* ================================================================== *)

(** Every call the program can make, whatever the framework answered to
    the calls before it, is of the kind [P]. *)
Inductive always (P : event -> Prop) (A : Type) : prog A -> Prop :=
| always_Ret (a : A) : always P (Ret a)
| always_Raise (e : pyerr) : always P (Raise e)
| always_Do (T : Type) (c : call T) (k : T -> prog A) :
    (forall resp, P (Ev c resp)) ->
    (forall v, always P (k v)) ->
    always P (Do c k).


(** The program does not return: whatever the framework answers, it ends
    in a call that fails or in a raise of an error of the kind [Q]. *)
Inductive raises (Q : pyerr -> Prop) (A : Type) : prog A -> Prop :=
| raises_Raise (e : pyerr) : Q e -> raises Q (Raise e)
| raises_Do (T : Type) (c : call T) (k : T -> prog A) :
    (forall v, raises Q (k v)) -> raises Q (Do c k).

(** How the network was initialized, call by call: [force_reinit], [ctx]
    and [init]. *)
Definition initializations (t : list event)
  : list (bool * option Context * option Initializer) :=
  flat_map (fun e => match ev_call e with
                     | Initialize _ force ctx init => [(force, ctx, init)]
                     | _ => []
                     end) t.

(* ================================================================== *)
(** ** The cells, from top to bottom *)
(* ================================================================== *)

(** The notebook run from its first cell to its last.
    - [npx.set_np()], and the network [net];
    - the shape inspection;
    - [batch_size = 256; train_iter, test_iter =
      d2l.load_data_fashion_mnist(batch_size=batch_size)];
    - [def evaluate_accuracy_gpu], which makes no call;
    - [def train_ch5(..., ctx=d2l.try_gpu())]: the default of [ctx] is
      evaluated here, once;
    - [lr, num_epochs = 0.9, 10;
       train_ch5(net, train_iter, test_iter, num_epochs, lr)], with that
      default. *)
Definition notebook : prog unit :=
  do_call SetNp ;;;
  shape_inspection net ;;;
  let batch_size := 256%nat in
  loaders <- do_call (LoadDataFashionMnist batch_size) ;;
  let '(train_iter, test_iter) := loaders in
  try_gpu <- do_call TryGpu ;;
  let lr := 9 # 10 in
  let num_epochs := 10%nat in
  train_ch5 net train_iter test_iter num_epochs lr try_gpu.

End Notebook.

Arguments Ok {FwExn A} a.
Arguments Err {FwExn A} e.
Arguments Ret {NDArray Param Trainer Loss Animator DataIter A} a.
Arguments Raise {NDArray Param Trainer Loss Animator DataIter A} e.
Arguments Do {NDArray Param Trainer Loss Animator DataIter A T} c k.

(* ================================================================== *)
(** ** A small framework to run the notebook against *)
(* ================================================================== *)

Module Toy.

(** An array is its shape; a batch of [n] images is [(n, 1, 28, 28)] with
    labels [(n,)]. *)
Definition NDArray : Type := list nat.

Definition batch (n : nat) : NDArray * NDArray := ([n; 1; 28; 28]%nat, [n]).

(** The two data loaders. *)
Inductive DataIter : Type := train_data | test_data.

Record World : Type := {
  clock : Z;                                    (* time.time() *)
  train_passes : list (list (NDArray * NDArray)); (* what each pass yields *)
  test_passes : list (list (NDArray * NDArray));
  train_len : nat;                              (* len(train_iter) *)
  params : list (string * nat);                 (* net.collect_params() *)
  calls_left : option nat }.                    (* calls before a failure *)

(** Output shapes as Gluon computes them: a convolution with kernel [k]
    and padding [p] maps [h] to [h + 2p - k + 1], a pooling with window
    [p] and stride [s] maps [h] to [(h - p) / s + 1], a dense layer
    flattens. *)
Fixpoint forward_shape (b : Block) (x : list nat) : list nat :=
  match b, x with
  | Conv2D c k p _, [n; _; h; w] =>
      [n; c; h + 2 * p - k + 1; w + 2 * p - k + 1]%nat
  | AvgPool2D p s, [n; c; h; w] =>
      [n; c; (h - p) / s + 1; (w - p) / s + 1]%nat
  | Dense u _, n :: _ => [n; u]
  | Sequential children, _ =>
      (fix go (cs : list Block) (x : list nat) : list nat :=
         match cs with
         | [] => x
         | c :: cs' => go cs' (forward_shape c x)
         end) children x
  | _, _ => x
  end.

Definition spend (w : World) : World :=
  {| clock := clock w; train_passes := train_passes w;
     test_passes := test_passes w;
     train_len := train_len w; params := params w;
     calls_left := option_map pred (calls_left w) |}.

Definition tick (w : World) : World :=
  {| clock := clock w + 1; train_passes := train_passes w;
     test_passes := test_passes w;
     train_len := train_len w; params := params w;
     calls_left := calls_left w |}.

Definition next_pass (it : DataIter) (w : World)
  : list (NDArray * NDArray) * World :=
  match it with
  | train_data =>
      (hd [] (train_passes w),
       {| clock := clock w; train_passes := tl (train_passes w);
          test_passes := test_passes w;
     train_len := train_len w; params := params w;
          calls_left := calls_left w |})
  | test_data =>
      (hd [] (test_passes w),
       {| clock := clock w; train_passes := train_passes w;
          test_passes := tl (test_passes w);
          train_len := train_len w; params := params w;
          calls_left := calls_left w |})
  end.

Definition toy_call : Type -> Type :=
  @call NDArray nat unit unit unit DataIter.

(** Every call succeeds until [calls_left] runs out, but an optimizer
    step of batch size 0, which Gluon's [Trainer.step] refuses: it divides
    by the batch size.  A prediction is right on every second example; the
    loss of an example is 1/4; the clock advances by one second per
    reading. *)
Definition framework (T : Type) (c : toy_call T) (w0 : World)
  : (string + T) * World :=
  match calls_left w0 with
  | Some O => (inl "MXNetError", w0)
  | _ =>
      let w := spend w0 in
      match c in call T return (string + T) * World with
      | @RandomUniform _ _ _ _ _ _ sz => (inr sz, w)
      | @Initialize _ _ _ _ _ _ _ _ _ _ => (inr tt, w)
      | @CollectParams _ _ _ _ _ _ _ => (inr (params w), w)
      | @ListCtx _ _ _ _ _ _ _ => (inr [gpu 0], w)
      | @AsInContext _ _ _ _ _ _ a _ => (inr a, w)
      | @Forward _ _ _ _ _ _ b X _ => (inr (forward_shape b X), w)
      | @SoftmaxCrossEntropyLoss _ _ _ _ _ _ => (inr tt, w)
      | @LossCall _ _ _ _ _ _ _ _ y _ => (inr y, w)
      | @Backward _ _ _ _ _ _ _ => (inr tt, w)
      | @NewTrainer _ _ _ _ _ _ _ _ _ => (inr tt, w)
      | @Step _ _ _ _ _ _ _ n =>
          match n with
          | O => (inl "ZeroDivisionError", w)
          | _ => (inr tt, w)
          end
      | @SumScalar _ _ _ _ _ _ l => (inr (of_nat (hd 0%nat l) * (1 # 4)), w)
      | @Accuracy _ _ _ _ _ _ _ y => (inr (of_nat (hd 0%nat y / 2)), w)
      | @Iter _ _ _ _ _ _ it => let '(bs, w') := next_pass it w in (inr bs, w')
      | @Len _ _ _ _ _ _ _ => (inr (train_len w), w)
      | @TimeTime _ _ _ _ _ _ => (inr (inject_Z (clock w)), tick w)
      | @NewAnimator _ _ _ _ _ _ _ _ _ => (inr tt, w)
      | @AnimatorAdd _ _ _ _ _ _ _ _ _ => (inr tt, w)
      | @PyPrint _ _ _ _ _ _ _ => (inr tt, w)
      | @SetNp _ _ _ _ _ _ => (inr tt, w)
      | @LoadDataFashionMnist _ _ _ _ _ _ _ =>
          (inr (train_data, test_data), w)
      | @TryGpu _ _ _ _ _ _ => (inr (gpu 0), w)
      end
  end.

Definition shape (a : NDArray) : list nat := a.

Definition toy_prog : Type -> Type :=
  @prog NDArray nat unit unit unit DataIter.

Definition toy_event : Type :=
  @event NDArray nat unit unit unit DataIter string.
Definition toy_outcome : Type -> Type := @outcome string.

Definition run_toy (A : Type) (p : toy_prog A) (w : World)
  : toy_outcome A * World * list toy_event :=
  run framework p w.

Definition shape_inspection : Block -> toy_prog NDArray :=
  shape_inspection shape.

Definition evaluate_accuracy_gpu
  : Block -> DataIter -> option Context -> toy_prog Q :=
  evaluate_accuracy_gpu shape.

Definition train_ch5
  : Block -> DataIter -> DataIter -> nat -> Q -> Context -> toy_prog unit :=
  train_ch5 shape.

(** A world whose loaders yield the given passes, and that never fails. *)
Definition world (train test : list (list nat)) : World :=
  {| clock := 0;
     train_passes := map (map batch) train;
     test_passes := map (map batch) test;
     train_len := List.length (hd [] train);
     params := [("conv0_weight", 0%nat); ("conv0_bias", 1%nat)];
     calls_left := None |}.

Definition failing (n : nat) (w : World) : World :=
  {| clock := clock w; train_passes := train_passes w;
     test_passes := test_passes w;
     train_len := train_len w; params := params w;
     calls_left := Some n |}.

Definition outcome_of (A : Type) (r : toy_outcome A * World * list toy_event)
  : toy_outcome A := fst (fst r).

Definition trace_of (A : Type) (r : toy_outcome A * World * list toy_event)
  : list toy_event := snd r.

Definition is_train (it : DataIter) : bool :=
  match it with train_data => true | test_data => false end.

(** The same world, for a network without parameters. *)
Definition without_params (w : World) : World :=
  {| clock := clock w; train_passes := train_passes w;
     test_passes := test_passes w;
     train_len := train_len w; params := [];
     calls_left := calls_left w |}.

(** The examples each pass yielded. *)
Definition examples_of (ps : list (list (NDArray * NDArray))) : list nat :=
  map (fun bs => list_sum (map (fun b => hd 0%nat (fst b)) bs)) ps.


End Toy.

(* ================================================================== *)
(** ** Concrete runs *)
(* ================================================================== *)

Section Demos.

Import Toy.

(** Two test batches, of 4 and of 2 examples. *)
Definition eval_demo : toy_outcome Q * World * list toy_event :=
  run_toy (evaluate_accuracy_gpu net test_data None) (world [] [[4; 2]]%nat).

(** A test iterator that yields nothing. *)
Definition eval_nothing : toy_outcome Q * World * list toy_event :=
  run_toy (evaluate_accuracy_gpu net test_data None) (world [] [[]]).

(** The device lookup alone. *)
Definition lookup_demo : toy_outcome Context * World * list toy_event :=
  run_toy (pick_device net None)
          (world [] [[]]).

(** A network without parameters. *)
Definition eval_no_params : toy_outcome Q * World * list toy_event :=
  run_toy (evaluate_accuracy_gpu net test_data None)
          (without_params (world [] [[4; 2]]%nat)).

(** Two epochs; training batches of 4 and 2 examples, then of 3. *)
Definition train_demo : toy_outcome unit * World * list toy_event :=
  run_toy (train_ch5 net train_data test_data 2 (9 # 10) (gpu 0))
          (world [[4; 2]; [3]]%nat [[4]; [4]]%nat).

(** The same, on a framework that fails at its twenty-first call. *)
Definition train_failing : toy_outcome unit * World * list toy_event :=
  run_toy (train_ch5 net train_data test_data 2 (9 # 10) (gpu 0))
          (failing 20 (world [[4; 2]; [3]]%nat [[4]; [4]]%nat)).

(** Two epochs; the training iterator is exhausted after the first. *)
Definition train_one_shot : toy_outcome unit * World * list toy_event :=
  run_toy (train_ch5 net train_data test_data 2 (9 # 10) (gpu 0))
          (world [[4; 2]; []]%nat [[4]; [4]]%nat).

(** The same, with a training iterator that never yields a batch. *)
Definition train_nothing : toy_outcome unit * World * list toy_event :=
  run_toy (train_ch5 net train_data test_data 2 (9 # 10) (gpu 0))
          (world [[]; []] [[4]; [4]]%nat).

(** Three epochs, of 1, 3 and 2 examples. *)
Definition train_uneven : toy_outcome unit * World * list toy_event :=
  run_toy (train_ch5 net train_data test_data 3 (9 # 10) (gpu 0))
          (world [[1]; [2; 1]; [2]]%nat [[4]; [4]; [4]]%nat).

(** One epoch of fifty batches of one example. *)
Definition train_fifty : toy_outcome unit * World * list toy_event :=
  run_toy (train_ch5 net train_data test_data 1 (9 # 10) (gpu 0))
          (world [repeat 1%nat 50] [[4]]%nat).

(** The dummy forward pass. *)
Definition shape_demo : toy_outcome NDArray * World * list toy_event :=
  run_toy (shape_inspection net) (world [] []).

Definition toy_epoch : Type :=
  @epoch_run NDArray nat unit unit unit DataIter string.

Definition toy_locals_of (d : locals)
           (r : toy_outcome locals * World * list toy_event) : locals :=
  match outcome_of r with Ok st => st | Err _ => d end.

(** Locals left by an earlier epoch: an accumulator that is not empty. *)
Definition stale : locals :=
  {| metric := Some {| data := [7; 7; 7] |};
     timer := {| times := []; start_time := 0 |};
     train_loss := None; train_acc := None; test_acc := None |}.

(** One epoch over training batches of 4 and 2 examples. *)
Definition epoch_demo : toy_outcome locals * World * list toy_event :=
  run_toy (train_epoch shape net train_data test_data (gpu 0) tt tt tt
                       stale 0)
          (world [[4; 2]]%nat [[4]]%nat).

(** The locals before the epoch loop. *)
Definition unassigned : locals :=
  {| metric := None; timer := {| times := []; start_time := 0 |};
     train_loss := None; train_acc := None; test_acc := None |}.

(** Two epochs; the training iterator is exhausted after the first. *)
Definition loop_one_shot : toy_outcome locals * World * list toy_event :=
  run_toy (for_each (seq 0 2)
             (train_epoch shape net train_data test_data (gpu 0)
                          tt tt tt) unassigned)
          (world [[4; 2]; []]%nat [[4]; [4]]%nat).

(** Two epochs over a training iterator that yields nothing. *)
Definition loop_nothing : toy_outcome locals * World * list toy_event :=
  run_toy (for_each (seq 0 2)
             (train_epoch shape net train_data test_data (gpu 0)
                          tt tt tt) unassigned)
          (world [[]; []] [[4]; [4]]%nat).

(** One epoch on the CPU, of a network whose parameters are on a GPU. *)
Definition train_on_cpu : toy_outcome unit * World * list toy_event :=
  run_toy (train_ch5 net train_data test_data 1 (9 # 10) (cpu 0))
          (world [[4; 2]]%nat [[4]]%nat).



(** An epoch whose first training batch holds no example. *)
Definition epoch_no_example : toy_outcome locals * World * list toy_event :=
  run_toy (train_epoch shape net train_data test_data (gpu 0) tt tt tt
                       unassigned 0)
          (world [[0; 4]]%nat [[4]]%nat).

(** The cells, on loaders that yield two training batches and one test
    batch at each of the ten passes. *)
Definition notebook_demo : toy_outcome unit * World * list toy_event :=
  run_toy (notebook shape)
          (world (repeat [4; 2]%nat 10) (repeat [4]%nat 10)).

End Demos.

(* ================================================================== *)
(** ** The declared network *)
(* ================================================================== *)

(** C1 (as stated): the declared list does not have six layers. *)
Lemma net_is_not_six_layers : List.length (layers net) <> 6%nat.
Proof. simpl. discriminate. Qed.

(** C1 (as amended). The declared network is a list of seven layers, the
    LeNet topology: two convolutions with kernel size 5 (6 then 16 output
    channels, sigmoid), each followed by an average pooling with window 2
    and stride 2, then dense layers of widths 120 and 84 (sigmoid) and 10
    (no activation).  Every layer is of one of the three kinds of the data
    model. *)
Theorem net_is_lenet :
  layers net
  = [ Conv2D 6 5 2 (Some "sigmoid"); AvgPool2D 2 2;
      Conv2D 16 5 0 (Some "sigmoid"); AvgPool2D 2 2;
      Dense 120 (Some "sigmoid"); Dense 84 (Some "sigmoid"); Dense 10 None ] /\
  List.length (layers net) = 7%nat /\
  forallb lenet_layer (layers net) = true /\
  map is_conv (layers net) = [true; false; true; false; false; false; false] /\
  map is_pool (layers net) = [false; true; false; true; false; false; false] /\
  map is_dense (layers net) = [false; false; false; false; true; true; true].
Proof. repeat split. Qed.

(* ================================================================== *)
(** ** How programs run *)
(* ================================================================== *)

Section NotebookFacts.

Context {NDArray Param Trainer Loss Animator DataIter FwExn World : Type}.
Variable shape : NDArray -> list nat.

#[local] Abbreviation call :=
    (@call NDArray Param Trainer Loss Animator DataIter).
#[local] Abbreviation prog :=
    (@prog NDArray Param Trainer Loss Animator DataIter).
#[local] Abbreviation event :=
  (@event NDArray Param Trainer Loss Animator DataIter FwExn).
#[local] Abbreviation outcome := (@outcome FwExn).
#[local] Abbreviation eval_step := (@eval_step NDArray).
#[local] Abbreviation train_step := (@train_step NDArray).
#[local] Abbreviation layer_step := (@layer_step NDArray).
#[local] Abbreviation epoch_run :=
  (@epoch_run NDArray Param Trainer Loss Animator DataIter FwExn).

#[local] Abbreviation eval_step_events :=
  (@eval_step_events NDArray Param Trainer Loss Animator DataIter FwExn).
#[local] Abbreviation plot_events :=
  (@plot_events NDArray Param Trainer Loss Animator DataIter FwExn).
#[local] Abbreviation train_step_events :=
  (@train_step_events NDArray Param Trainer Loss Animator DataIter FwExn).
#[local] Abbreviation train_events :=
  (@train_events NDArray Param Trainer Loss Animator DataIter FwExn).
#[local] Abbreviation test_events :=
  (@test_events NDArray Param Trainer Loss Animator DataIter FwExn).
#[local] Abbreviation epoch_events :=
  (@epoch_events NDArray Param Trainer Loss Animator DataIter FwExn).
#[local] Abbreviation setup_events :=
  (@setup_events NDArray Param Trainer Loss Animator DataIter FwExn).
#[local] Abbreviation summary_events :=
  (@summary_events NDArray Param Trainer Loss Animator DataIter FwExn).
#[local] Abbreviation layer_step_events :=
  (@layer_step_events NDArray Param Trainer Loss Animator DataIter FwExn).
#[local] Abbreviation pick_device :=
  (@pick_device NDArray Param Trainer Loss Animator DataIter).
#[local] Abbreviation train_summary :=
  (@train_summary NDArray Param Trainer Loss Animator DataIter).
#[local] Abbreviation examples_per_sec :=
  (@examples_per_sec NDArray Param Trainer Loss Animator DataIter).

Variable framework : forall T : Type, call T -> World -> (FwExn + T) * World.

Lemma run_bind (A B : Type) (m : prog A) (f : A -> prog B) (w : World) :
  run framework (bind m f) w =
  match run framework m w with
  | (Ok a, w1, t1) =>
      let '(r, w2, t2) := run framework (f a) w1 in (r, w2, t1 ++ t2)
  | (Err e, w1, t1) => (Err e, w1, t1)
  end.
Proof.
  revert w; induction m as [a|e|T c k IH]; intros w; simpl.
  - destruct (run framework (f a) w) as [[r w2] t2]; reflexivity.
  - reflexivity.
  - destruct (framework c w) as [[e|v] w1]; [reflexivity|].
    rewrite IH. destruct (run framework (k v) w1) as [[[a|e] w2] t1];
        [|reflexivity].
    destruct (run framework (f a) w2) as [[r w3] t2]; reflexivity.
Qed.

Lemma run_bind_Ok_inv (A B : Type) (m : prog A) (f : A -> prog B)
      (w w' : World) (b : B) (t : list event) :
  run framework (bind m f) w = (Ok b, w', t) ->
  exists a w1 t1 t2,
    run framework m w = (Ok a, w1, t1) /\
    run framework (f a) w1 = (Ok b, w', t2) /\
    t = t1 ++ t2.
Proof.
  rewrite run_bind. destruct (run framework m w) as [[[a|e] w1] t1];
      [|discriminate].
  destruct (run framework (f a) w1) as [[r w2] t2] eqn:E. intros H.
  injection H as -> -> <-. exists a, w1, t1, t2. auto.
Qed.

Lemma run_call_Ok_inv (T : Type) (c : call T) (w w' : World) (v : T)
      (t : list event) :
  run framework (do_call c) w = (Ok v, w', t) ->
  framework c w = (inr v, w') /\ t = [returned c v].
Proof.
  simpl. destruct (framework c w) as [[e|x] w1]; [discriminate|].
  intros H. injection H as -> -> <-. auto.
Qed.

Lemma run_Ret_inv (A : Type) (a b : A) (w w' : World) (t : list event) :
  run framework (Ret a) w = (Ok b, w', t) -> b = a /\ w' = w /\ t = [].
Proof. simpl. intros H. injection H as -> -> <-. auto. Qed.

Lemma run_index_Ok_inv (A : Type) (l : list A) (i : nat) (w w' : World)
      (a : A) (t : list event) :
  run framework (index l i) w = (Ok a, w', t) ->
  nth_error l i = Some a /\ w' = w /\ t = [].
Proof.
  unfold index. destruct (nth_error l i); simpl; [|discriminate].
  intros H. injection H as -> -> <-. auto.
Qed.

Lemma run_truediv_Ok_inv (a b q : Q) (w w' : World) (t : list event) :
  run framework (truediv a b) w = (Ok q, w', t) ->
  Qeq_bool b 0 = false /\ q = a / b /\ w' = w /\ t = [].
Proof.
  unfold truediv. destruct (Qeq_bool b 0); simpl; [discriminate|].
  intros H. injection H as <- -> <-. auto.
Qed.

Lemma run_read_Ok_inv (A : Type) (name : string) (v : option A)
      (w w' : World) (a : A) (t : list event) :
  run framework (read name v) w = (Ok a, w', t) ->
  v = Some a /\ w' = w /\ t = [].
Proof.
  unfold read. destruct v; simpl; [|discriminate].
  intros H. injection H as -> -> <-. auto.
Qed.

(** Peels the first statement off a program that ran to completion. *)
Ltac peel_as H a Hm :=
  let w1 := fresh "w" in
  let t1 := fresh "t" in
  let t2 := fresh "t" in
  let Et := fresh "Et" in
  apply run_bind_Ok_inv in H;
  destruct H as (a & w1 & t1 & t2 & Hm & H & Et);
  first
    [ apply run_call_Ok_inv in Hm; destruct Hm as [Hm ?]
    | apply run_index_Ok_inv in Hm; destruct Hm as (Hm & ? & ?)
    | apply run_truediv_Ok_inv in Hm; destruct Hm as (Hm & ? & ? & ?)
    | apply run_read_Ok_inv in Hm; destruct Hm as (Hm & ? & ?)
    | apply run_Ret_inv in Hm; destruct Hm as (? & ? & ?)
    | idtac ];
  subst.

Tactic Notation "peel" hyp(H) "as" ident(a) ident(Hm) := peel_as H a Hm.

Tactic Notation "peel" hyp(H) :=
  let a := fresh "v" in let Hm := fresh "Hm" in peel_as H a Hm.

Ltac done_run H :=
  apply run_Ret_inv in H; destruct H as (? & ? & ?); subst.

(** A program that starts with a call makes that call first, each time. *)
Lemma run_first_call (A T : Type) (c : call T) (k : T -> prog A) (w : World) :
  exists resp rest, snd (run framework (Do c k) w) = Ev c resp :: rest.
Proof.
  simpl. destruct (framework c w) as [[e|v] w1].
  - eexists _, _. reflexivity.
  - destruct (run framework (k v) w1) as [[r w2] t]. eexists _, _. reflexivity.
Qed.

(** The first failing call ends the run, and its error is the result. *)
Lemma run_stops_at_failure (A : Type) (p : prog A) (w w' : World)
      (r : outcome A) (t pre post : list event) (ev : event) (e : FwExn) :
  run framework p w = (r, w', t) ->
  t = pre ++ ev :: post -> failure ev = Some e ->
  post = [] /\ r = Err (Framework e).
Proof.
  revert w w' r t pre.
  induction p as [a|x|T c k IH]; intros w w' r t pre; simpl.
  - intros H ->. injection H as _ _ H. destruct pre; discriminate.
  - intros H ->. injection H as _ _ H. destruct pre; discriminate.
  - destruct (framework c w) as [[x|v] w1].
    + intros H ->. injection H as <- _ H.
      destruct pre as [|p0 pre]; simpl in H.
      * injection H as <- <-. simpl. intros [= ->]. auto.
      * injection H as _ H. destruct pre; discriminate.
    + destruct (run framework (k v) w1) as [[r1 w2] t1] eqn:E.
      intros H ->. injection H as <- _ H.
      destruct pre as [|p0 pre]; simpl in H.
      * injection H as <- _. simpl. discriminate.
      * injection H as _ H. intros F. eapply IH; eauto.
Qed.

(** A framework error in the result is the error of the last call made. *)
Lemma run_framework_error_origin (A : Type) (p : prog A) (w w' : World)
      (t : list event) (e : FwExn) :
  run framework p w = (Err (Framework e), w', t) ->
  exists pre ev, t = pre ++ [ev] /\ failure ev = Some e.
Proof.
  revert w w' t. induction p as [a|x|T c k IH]; intros w w' t; simpl.
  - discriminate.
  - discriminate.
  - destruct (framework c w) as [[x|v] w1].
    + intros H. injection H as -> _ <-. exists [], (raised c e). auto.
    + destruct (run framework (k v) w1) as [[r1 w2] t1] eqn:E.
      intros H. injection H as -> _ <-.
      destruct (IH _ _ _ _ E) as (pre & ev & -> & F).
      exists (returned c v :: pre), ev. auto.
Qed.

(* ================================================================== *)
(** ** What a function can call, however its run ends *)
(* ================================================================== *)

Section Always.

Variable P : event -> Prop.

Lemma always_bind (A B : Type) (m : prog A) (f : A -> prog B) :
  always P m -> (forall a, always P (f a)) -> always P (bind m f).
Proof.
  intros Hm Hf. induction Hm as [a|e|T c k Hc Hk IH]; simpl.
  - apply Hf.
  - constructor.
  - constructor; auto.
Qed.

Lemma always_call (T : Type) (c : call T) :
  (forall resp, P (Ev c resp)) -> always P (do_call c).
Proof. intros H. constructor; [exact H|]. intros v. constructor. Qed.

Lemma always_for_each (A S : Type) (xs : list A) (body : S -> A -> prog S)
      (st : S) :
  (forall st x, always P (body st x)) -> always P (for_each xs body st).
Proof.
  intros H. revert st. induction xs as [|x xs IH]; intros st; simpl.
  - constructor.
  - apply always_bind; auto.
Qed.

Lemma always_for_enumerate (A S : Type) (xs : list A)
      (body : S -> nat -> A -> prog S) (i : nat) (st : S) :
  (forall st i x, always P (body st i x)) ->
  always P (for_enumerate i xs body st).
Proof.
  intros H. revert i st. induction xs as [|x xs IH]; intros i st; simpl.
  - constructor.
  - apply always_bind; auto.
Qed.

Lemma always_index (A : Type) (l : list A) (i : nat) : always P (index l i).
Proof. unfold index. destruct (nth_error l i); constructor. Qed.

Lemma always_truediv (a b : Q) : always P (truediv a b).
Proof. unfold truediv. destruct (Qeq_bool b 0); constructor. Qed.

Lemma always_read (A : Type) (name : string) (v : option A) :
  always P (read name v).
Proof. destruct v; constructor. Qed.

(** What holds of every call a program can make holds of every call of
    each of its runs. *)
Lemma always_run (A : Type) (m : prog A) (w : World) :
  always P m -> Forall P (snd (run framework m w)).
Proof.
  intros H. revert w. induction H as [a|e|T c k Hc Hk IH]; intros w; simpl.
  - constructor.
  - constructor.
  - destruct (framework c w) as [[e|v] w1]; simpl.
    + constructor; [apply Hc|constructor].
    + specialize (IH v w1).
      destruct (run framework (k v) w1) as [[r w2] t]. simpl in *.
      constructor; [apply Hc|exact IH].
Qed.

End Always.

(** Goes through a program, call by call. *)
Ltac calls :=
  repeat match goal with
  | |- always _ (bind _ _) => apply always_bind
  | |- always _ (do_call _) =>
      apply always_call; intros; first [reflexivity | exact I]
  | |- always _ (for_each _ _ _) => apply always_for_each
  | |- always _ (for_enumerate _ _ _ _) => apply always_for_enumerate
  | |- always _ (index _ _) => apply always_index
  | |- always _ (getitem _ _) => apply always_index
  | |- always _ (truediv _ _) => apply always_truediv
  | |- always _ (read _ _) => apply always_read
  | |- always _ (Do _ _) =>
      apply always_Do; [intros; first [reflexivity | exact I]|]
  | |- always _ Timer_new => unfold Timer_new
  | |- always _ (Ret _) => apply always_Ret
  | |- always _ (Raise _) => apply always_Raise
  | |- always _ (match ?x with _ => _ end) => destruct x
  | |- forall _, _ => intro
  | |- always _ (pick_device _ _) => unfold pick_device, first_param_ctx
  | |- always _ (evaluate_batch _ _ _ _ _) => unfold evaluate_batch
  | |- always _ (evaluate_accuracy_gpu _ _ _ _) => unfold evaluate_accuracy_gpu
  | |- always _ (train_batch _ _ _ _ _ _ _ _ _ _ _) =>
      unfold train_batch, timer_start, timer_stop
  | |- always _ (train_epoch _ _ _ _ _ _ _ _ _ _) => unfold train_epoch
  | |- always _ (examples_per_sec _ _) => unfold examples_per_sec
  | |- always _ (train_summary _ _ _) => unfold train_summary
  | |- always _ (train_setup _ _ _ _) => unfold train_setup, Timer_new
  | |- always _ (inspect_layer _ _ _) => unfold inspect_layer
  end.

(** Reads the trace in the goal as that of the run [H] is about. *)
Ltac trace_of_run H :=
  match type of H with
  | run ?fw ?p ?w = (_, _, ?t) =>
      replace t with (snd (run fw p w)) by (rewrite H; reflexivity)
  end.

Lemma always_count (p : event -> bool) (A : Type) (m : prog A) (w : World) :
  always (fun e => p e = false) m ->
  count p (snd (run framework m w)) = 0%nat.
Proof.
  intros H. apply always_run with (w := w) in H. unfold count.
  induction H as [|e t He _ IH]; simpl; [reflexivity|]. rewrite He. exact IH.
Qed.

Lemma always_forallb (p : event -> bool) (A : Type) (m : prog A) (w : World) :
  always (fun e => p e = true) m ->
  forallb p (snd (run framework m w)) = true.
Proof.
  intros H. apply always_run with (w := w) in H.
  induction H as [|e t He _ IH]; simpl; [reflexivity|]. rewrite He. exact IH.
Qed.

Lemma printed_no_print (t : list event) :
  count is_print t = 0%nat -> printed t = [].
Proof.
  unfold count, printed. induction t as [|[T c resp] t IH]; [reflexivity|].
  destruct c; cbn; try exact IH; discriminate.
Qed.

Lemma devices_all (c : Context) (t : list event) :
  Forall (fun e => match ev_call e with
                   | AsInContext _ c' => c' = c
                   | _ => True
                   end) t ->
  Forall (eq c) (devices t).
Proof.
  unfold devices. induction 1 as [|[T c0 resp] t He _ IH]; [constructor|].
  destruct c0; cbn in *; try exact IH. constructor; auto.
Qed.

Section AtMost.

Variable p : event -> bool.







End AtMost.

(* ================================================================== *)
(** ** Accumulators *)
(* ================================================================== *)

Lemma add_two_slots (S : Type) (f g : S -> Q) (steps : list S)
      (m : Accumulator) (a b : Q) :
  data m = [a; b] ->
  data (fold_left (fun m s => add m [f s; g s]) steps m) =
  [fold_left Qplus (map f steps) a; fold_left Qplus (map g steps) b].
Proof.
  revert m a b. induction steps as [|s steps IH]; intros m a b Hm; simpl.
  - exact Hm.
  - apply IH. simpl. rewrite Hm. reflexivity.
Qed.

Lemma add_three_slots (S : Type) (f g h : S -> Q) (steps : list S)
      (m : Accumulator) (a b c : Q) :
  data m = [a; b; c] ->
  data (fold_left (fun m s => add m [f s; g s; h s]) steps m) =
  [fold_left Qplus (map f steps) a; fold_left Qplus (map g steps) b;
   fold_left Qplus (map h steps) c].
Proof.
  revert m a b c. induction steps as [|s steps IH]; intros m a b c Hm; simpl.
  - exact Hm.
  - apply IH. simpl. rewrite Hm. reflexivity.
Qed.

(* ================================================================== *)
(** ** Completed runs of [evaluate_accuracy_gpu] *)
(* ================================================================== *)

Lemma evaluate_batch_inv (net : Block) (dev : Context) (m m' : Accumulator)
      (b : NDArray * NDArray) (w w' : World) (t : list event) :
  run framework (evaluate_batch shape net dev m b) w = (Ok m', w', t) ->
  exists s, e_batch s = b /\ t = eval_step_events net dev s /\
            m' = add m [e_correct s; e_examples shape s].
Proof.
  destruct b as [X y]. unfold evaluate_batch. intros H.
  do 4 peel H. apply run_Ret_inv in H. destruct H as (-> & -> & ->).
  exists {| e_X := X; e_y := y; e_X_dev := v; e_y_dev := v0;
            e_y_hat := v1; e_correct := v2 |}.
  repeat split.
Qed.

Lemma evaluate_loop_inv (net : Block) (dev : Context)
      (bs : list (NDArray * NDArray)) (m m' : Accumulator)
      (w w' : World) (t : list event) :
  run framework (for_each bs (evaluate_batch shape net dev) m) w =
      (Ok m', w', t) ->
  exists steps,
    map e_batch steps = bs /\
    t = flat_map (eval_step_events net dev) steps /\
    m' = fold_left (fun m s => add m [e_correct s; e_examples shape s]) steps m.
Proof.
  revert m w t. induction bs as [|b bs IH]; intros m w t; simpl for_each.
  - intros H. apply run_Ret_inv in H. destruct H as (-> & -> & ->).
    exists []. auto.
  - intros H. peel H. apply evaluate_batch_inv in Hm.
    destruct Hm as (s & <- & -> & ->).
    apply IH in H. destruct H as (steps & <- & -> & ->).
    exists (s :: steps). auto.
Qed.

Lemma first_param_ctx_inv (net : Block) (dev : Context) (w w' : World)
      (t : list event) :
  run framework (first_param_ctx net) w = (Ok dev, w', t) ->
  device_choice net None dev t.
Proof.
  unfold first_param_ctx. intros H. do 3 peel H.
  apply run_index_Ok_inv in H. destruct H as (H & -> & ->).
  simpl. econstructor; eauto.
Qed.

Lemma device_choice_inv (net : Block) (ctx : option Context) (dev : Context)
      (w w' : World) (t : list event) :
  run framework
      (match ctx with Some c => Ret c | None => first_param_ctx net end) w
  = (Ok dev, w', t) ->
  device_choice net ctx dev t.
Proof.
  destruct ctx as [c|].
  - intros H. apply run_Ret_inv in H. destruct H as (-> & -> & ->).
    constructor.
  - apply first_param_ctx_inv.
Qed.

(** A completed evaluation: the device, the trace, and the value. *)
Lemma evaluate_accuracy_gpu_inv (net : Block) (data_iter : DataIter)
      (ctx : option Context) (w w' : World) (r : Q) (t : list event) :
  run framework (evaluate_accuracy_gpu shape net data_iter ctx) w =
      (Ok r, w', t) ->
  exists dev hd steps,
    device_choice net ctx dev hd /\
    t = hd ++ returned (Iter data_iter) (map e_batch steps)
           :: flat_map (eval_step_events net dev) steps /\
    Qeq_bool (sum_floats (map (e_examples shape) steps)) 0 = false /\
    r = sum_floats (map e_correct steps)
        / sum_floats (map (e_examples shape) steps).
Proof.
  unfold evaluate_accuracy_gpu. intros H.
  peel H. apply device_choice_inv in Hm.
  peel H. peel H. apply evaluate_loop_inv in Hm1.
  destruct Hm1 as (steps & <- & -> & ->).
  unfold getitem in H.
  rewrite (add_two_slots e_correct (e_examples shape) steps (Accumulator_new 2)
                         (a := 0) (b := 0) eq_refl) in H.
  peel H. peel H. injection Hm1 as <-. injection Hm2 as <-.
  apply run_truediv_Ok_inv in H. destruct H as (Hz & -> & -> & ->).
  exists v, t0, steps. rewrite app_nil_r. auto.
Qed.

(* ================================================================== *)
(** ** Completed runs of [train_ch5] *)
(* ================================================================== *)

Section TrainRuns.

Variables (net : Block) (train_iter test_iter : DataIter)
          (num_epochs : nat) (lr : Q) (ctx : Context).
Variables (loss : Loss) (trainer : Trainer) (animator : Animator).

Lemma train_batch_inv (epoch i : nat) (b : NDArray * NDArray)
      (st st' : locals) (m : Accumulator) (w w' : World) (t : list event) :
  run framework
      (train_batch shape net train_iter ctx loss trainer animator epoch st i b)
       w
  = (Ok st', w', t) ->
  metric st = Some m ->
  exists s,
    t_index s = i /\ t_batch s = b /\
    t = train_step_events net train_iter ctx loss trainer animator epoch s /\
    step_sized shape s /\
    metric st' = Some (t_add m s) /\
    times (timer st') = times (timer st) ++ [t_elapsed s] /\
    test_acc st' = test_acc st /\
    rates_of (data (t_add m s)) st'.
Proof.
  destruct b as [X y]. unfold train_batch, timer_start, timer_stop, getitem.
  intros H Hmet. rewrite Hmet in H.
  peel H as tm Htm. peel Htm as start Hstart. done_run Htm.
  peel H as X' HX. peel H as y' Hy. peel H as y_hat Hf.
  peel H as l Hl. peel H as u1 Hb. peel H as n Hn. peel H as u2 Hs.
  peel H as m0 Hm0. injection Hm0 as <-.
  peel H as l_sum Hls. peel H as acc Hacc. peel H as n' Hn'.
  assert (n' = n) as -> by congruence.
  peel H as tm Htm. peel Htm as stop Hstop. done_run Htm.
  simpl times in H. simpl start_time in H.
  set (m' := add m [l_sum; acc; of_nat n]) in *.
  peel H as a Ha. peel H as c Hc. peel H as lrate Hlr.
  peel H as b Hb'. peel H as c' Hc'. peel H as arate Har.
  assert (c' = c) as -> by congruence.
  assert (Hdata : data m' = [a; b; c]).
  { subst m'. unfold add in *. cbn [data] in *.
    destruct (data m) as [|d0 [|d1 [|d2 ds]]];
      cbn [map combine nth_error fst snd] in *; try discriminate.
    rewrite combine_nil. simpl map. congruence. }
  destruct u1, u2.
  destruct ((i + 1) mod 50 =? 0)%nat eqn:Ei.
  - peel H as u3 Hp. peel Hp as len Hlen. peel Hp as frac Hfrac.
    apply run_call_Ok_inv in Hp. destruct Hp as [Hp ->]. destruct u3.
    done_run H.
    exists {| t_index := i; t_X := X; t_y := y; t_X_dev := X';
              t_y_dev := y'; t_y_hat := y_hat; t_l := l; t_n := n;
              t_l_sum := l_sum; t_acc := acc; t_start := start; t_stop := stop;
              t_loss_rate := a / c; t_acc_rate := b / c;
              t_len := len |}.
    unfold train_step_events, plot_events, step_sized, t_add, t_examples,
      t_elapsed, t_batch, rates_of.
    cbn [t_index t_X t_y t_X_dev t_y_dev t_y_hat t_l t_n t_l_sum t_acc
         t_start t_stop t_loss_rate t_acc_rate t_len app].
    rewrite Ei.
    repeat split; auto.
    fold m'. rewrite Hdata. exists a, b, c. auto.
  - peel H as u3 Hp. done_run H.
    exists {| t_index := i; t_X := X; t_y := y; t_X_dev := X';
              t_y_dev := y'; t_y_hat := y_hat; t_l := l; t_n := n;
              t_l_sum := l_sum; t_acc := acc; t_start := start; t_stop := stop;
              t_loss_rate := a / c; t_acc_rate := b / c;
              t_len := 0 |}.
    unfold train_step_events, plot_events, step_sized, t_add, t_examples,
      t_elapsed, t_batch, rates_of.
    cbn [t_index t_X t_y t_X_dev t_y_dev t_y_hat t_l t_n t_l_sum t_acc
         t_start t_stop t_loss_rate t_acc_rate t_len app].
    rewrite Ei.
    repeat split; auto.
    fold m'. rewrite Hdata. exists a, b, c. auto.
Qed.

Lemma rates_of_same_rates (sums : list Q) (st st' : locals) :
  train_loss st' = train_loss st -> train_acc st' = train_acc st ->
  rates_of sums st -> rates_of sums st'.
Proof.
  intros El Ea (a & b & c & Hs & Hc & Hl & Ha).
  exists a, b, c. rewrite El, Ea. auto.
Qed.

Lemma train_loop_inv (epoch : nat) (bs : list (NDArray * NDArray))
      (i : nat) (st st' : locals) (m : Accumulator) (w w' : World)
      (t : list event) :
  run framework
      (for_enumerate i bs (train_batch shape net train_iter ctx loss trainer
       animator epoch) st) w
  = (Ok st', w', t) ->
  metric st = Some m ->
  exists steps,
    map t_index steps = seq i (List.length bs) /\
    map t_batch steps = bs /\
    t = flat_map (train_step_events net train_iter ctx loss trainer animator
                                    epoch) steps /\
    Forall (step_sized shape) steps /\
    metric st' = Some (fold_left t_add steps m) /\
    times (timer st') = times (timer st) ++ map t_elapsed steps /\
    test_acc st' = test_acc st /\
    match steps with
    | [] => train_loss st' = train_loss st /\ train_acc st' = train_acc st
    | _ => rates_of (data (fold_left t_add steps m)) st'
    end.
Proof.
  revert i st m w t.
  induction bs as [|b bs IH]; intros i st m w t H Hmet; simpl
      for_enumerate in H.
  - done_run H. exists []. simpl. rewrite app_nil_r. auto 10.
  - peel H as st1 Hb.
    eapply train_batch_inv in Hb; [|exact Hmet].
    destruct Hb
      as (s & Hi & Hbatch & -> & Hsz & Hmet1 & Htimes & Htest & Hrates).
    eapply IH in H; [|exact Hmet1].
    destruct H
      as (steps & His & Hbs & -> & Hszs & Hmet' & Htimes' & Htest' & Hr').
    exists (s :: steps). simpl.
    rewrite Hi, His, Hbatch, Hbs, Hmet', Htimes', Htimes, Htest', Htest.
    rewrite <- app_assoc. repeat split; auto.
    destruct steps as [|s' steps']; [|exact Hr'].
    destruct Hr' as [El Ea]. simpl.
    eapply rates_of_same_rates; eauto.
Qed.

Lemma train_epoch_inv (epoch : nat) (st st' : locals) (w w' : World)
      (t : list event) :
  run framework
      (train_epoch shape net train_iter test_iter ctx loss trainer animator st
       epoch) w = (Ok st', w', t) ->
  exists ep,
    ep_index ep = epoch /\ epoch_ok shape net ep /\
    t = epoch_events net train_iter test_iter ctx loss trainer animator ep /\
    option_map data (metric st') = Some (ep_sums ep) /\
    times (timer st') = times (timer st) ++ ep_times ep /\
    test_acc st' = Some (ep_test_acc ep) /\
    train_loss st' = rate_after ep_loss_sum (train_loss st) ep /\
    train_acc st' = rate_after ep_acc_sum (train_acc st) ep.
Proof.
  unfold train_epoch. intros H.
  peel H as bs Hbs. peel H as st1 Hloop.
  apply train_loop_inv with (m := Accumulator_new 3) in Hloop; [|reflexivity].
  destruct Hloop as (steps & His & <- & -> & Hsz & Hmet & Htimes & _ & Hr).
  cbn [timer train_loss train_acc] in *.
  peel H as acc Hev. apply evaluate_accuracy_gpu_inv in Hev.
  destruct Hev as (dev & hd & esteps & Hdev & -> & Hex & ->).
  peel H as u Hadd. destruct u. done_run H.
  cbn [metric timer train_loss train_acc test_acc].
  assert (Hdata : data (fold_left t_add steps (Accumulator_new 3))
                  = [sum_floats (map t_l_sum steps);
                     sum_floats (map t_acc steps);
                     sum_floats (map t_examples steps)]).
  { exact (add_three_slots t_l_sum t_acc t_examples steps
             (Accumulator_new 3) (a := 0) (b := 0) (c := 0) eq_refl). }
  rewrite Hdata in Hr.
  exists {| ep_index := epoch; ep_steps := steps; ep_dev := dev;
            ep_lookup := hd; ep_eval := esteps;
            ep_test_acc := sum_floats (map e_correct esteps)
                           / sum_floats (map (e_examples shape) esteps) |}.
  unfold epoch_events, train_events, test_events, ep_sums, ep_loss_sum,
    ep_acc_sum, ep_examples, ep_times, rate_after.
  cbn [ep_index ep_steps ep_dev ep_lookup ep_eval ep_test_acc].
  rewrite Hmet, Htimes. cbn [option_map]. rewrite Hdata.
  rewrite length_map in His.
  assert (Hnz : steps <> [] ->
                Qeq_bool (sum_floats (map t_examples steps)) 0 = false).
  { destruct steps as [|s0 steps0]; [congruence|]. intros _.
    destruct Hr as (a & b & c & [= <- <- <-] & Hc & _). exact Hc. }
  split; [reflexivity|]. split; [constructor; auto|].
  split; [rewrite app_nil_r; reflexivity|].
  repeat split; auto.
  - destruct steps as [|s0 steps0]; [tauto|].
    destruct Hr as (a & b & c & [= <- <- <-] & _ & Hl & _). exact Hl.
  - destruct steps as [|s0 steps0]; [tauto|].
    destruct Hr as (a & b & c & [= <- <- <-] & _ & _ & Ha). exact Ha.
Qed.

Lemma train_epochs_inv (n k : nat) (st st' : locals) (w w' : World)
      (t : list event) :
  run framework
      (for_each (seq k n) (train_epoch shape net train_iter test_iter ctx loss
       trainer animator) st) w = (Ok st', w', t) ->
  exists eps,
    map ep_index eps = seq k n /\ Forall (epoch_ok shape net) eps /\
    t = flat_map (epoch_events net train_iter test_iter ctx loss trainer
                          animator) eps /\
    times (timer st') = times (timer st) ++ all_times eps /\
    train_loss st' = fold_left (rate_after ep_loss_sum) eps (train_loss st) /\
    train_acc st' = fold_left (rate_after ep_acc_sum) eps (train_acc st) /\
    option_map data (metric st') =
      fold_left (fun _ ep => Some (ep_sums ep)) eps
                (option_map data (metric st)) /\
    test_acc st' =
      fold_left (fun _ ep => Some (ep_test_acc ep)) eps (test_acc st).
Proof.
  revert k st w t.
  induction n as [|n IH]; intros k st w t H; cbn [seq for_each] in H.
  - done_run H. exists []. simpl. rewrite app_nil_r. auto 10.
  - peel H as st1 Hep. apply train_epoch_inv in Hep.
    destruct Hep as (ep & Hi & Hok & -> & Hmet & Htimes & Htest & Hl & Ha).
    apply IH in H.
    destruct H as (eps & His & Hoks & -> & Htimes' & Hl' & Ha' & Hmet' & Ht').
    exists (ep :: eps). unfold all_times in *. simpl.
    rewrite Hi, His, Htimes', Htimes, Hl', Hl, Ha', Ha, Hmet', Hmet, Ht', Htest.
    repeat split; auto. rewrite <- app_assoc. reflexivity.
Qed.

End TrainRuns.

Lemma last_of_app (A B : Type) (f : A -> B) (l : list A) (x : A) :
  last_of f (l ++ [x]) = Some (f x).
Proof. unfold last_of. rewrite fold_left_app. reflexivity. Qed.

Lemma fold_last_Some (A B : Type) (f : A -> B) (l : list A) (init : option B)
      (b : B) :
  fold_left (fun _ x => Some (f x)) l init = Some b -> l <> [] ->
  exists l' x, l = l' ++ [x] /\ b = f x.
Proof.
  destruct l as [|x l'] using rev_ind; [congruence|].
  rewrite fold_left_app. simpl. intros [= <-] _. eauto.
Qed.

Section TrainCh5Runs.

Variables (net : Block) (train_iter test_iter : DataIter)
          (num_epochs : nat) (lr : Q) (ctx : Context).

(** A completed run of [train_ch5]: everything it called, in order, and
    the four numbers it printed. *)
Lemma train_ch5_inv (w w' : World) (u : unit) (t : list event) :
  run framework (train_ch5 shape net train_iter test_iter num_epochs lr ctx) w
  = (Ok u, w', t) ->
  exists loss params trainer animator t0 eps L A T E tp,
    map ep_index eps = seq 0 num_epochs /\
    Forall (epoch_ok shape net) eps /\
    t = setup_events net num_epochs lr ctx loss params trainer animator t0
        ++ flat_map (epoch_events net train_iter test_iter ctx
                                  loss trainer animator) eps
        ++ summary_events ctx L A T tp /\
    fold_left (rate_after ep_loss_sum) eps None = Some L /\
    fold_left (rate_after ep_acc_sum) eps None = Some A /\
    last_of ep_test_acc eps = Some T /\
    last_of ep_examples eps = Some E /\
    Qeq_bool (sum_floats (all_times eps)) 0 = false /\
    tp = E * of_nat num_epochs / sum_floats (all_times eps).
Proof.
  unfold train_ch5, train_setup, Timer_new. intros H.
  peel H as su Hsu.
  peel Hsu as u0 Hinit. peel Hsu as loss Hloss. peel Hsu as params Hpar.
  peel Hsu as trainer Htr. peel Hsu as animator Han.
  peel Hsu as tm Htm. peel Htm as clock0 Ht0. done_run Htm. done_run Hsu.
  peel H as st Hloop. apply train_epochs_inv in Hloop.
  destruct Hloop as (eps & His & Hoks & -> & Htimes & Hl & Ha & Hmet & Ht).
  cbn [timer times train_loss train_acc metric test_acc option_map] in *.
  unfold train_summary, examples_per_sec in H.
  peel H as L HL. peel H as A HA. peel H as T HT.
  peel H as u1 Hp1. peel H as tp Htp.
  peel Htp as m Hm. peel Htp as E HE.
  apply run_truediv_Ok_inv in Htp. destruct Htp as (Hz & -> & -> & ->).
  apply run_call_Ok_inv in H. destruct H as [Hp2 ->].
  destruct u0, u1, u.
  rewrite Hm in Hmet. cbn [option_map] in Hmet. symmetry in Hmet.
  rewrite HT in Ht. symmetry in Ht. fold (last_of ep_test_acc eps) in Ht.
  assert (Hne : eps <> []).
  { intros ->. discriminate. }
  eapply fold_last_Some in Hmet; [|exact Hne].
  destruct Hmet as (eps' & x & -> & Hdata).
  unfold getitem in HE. rewrite Hdata in HE. injection HE as <-.
  unfold timer_sum in *. rewrite Htimes in *.
  exists loss, params, trainer, animator, clock0, (eps' ++ [x]), L, A, T,
    (ep_examples x), (ep_examples x * of_nat num_epochs
                      / sum_floats (all_times (eps' ++ [x]))).
  split; [exact His|]. split; [exact Hoks|].
  split; [unfold setup_events, summary_events; simpl app; reflexivity|].
  split; [rewrite <- Hl; exact HL|]. split; [rewrite <- Ha; exact HA|].
  split; [exact Ht|]. split; [apply last_of_app|].
  split; [exact Hz|reflexivity].
Qed.

End TrainCh5Runs.

(* ================================================================== *)
(** ** Properties of [evaluate_accuracy_gpu] *)
(* ================================================================== *)

Lemma of_nat_plus (a b : nat) : of_nat (a + b) == of_nat a + of_nat b.
Proof. unfold of_nat. rewrite Nat2Z.inj_add, inject_Z_plus. reflexivity. Qed.

Lemma fold_Qplus_of_nat (l : list nat) (a : nat) :
  fold_left Qplus (map of_nat l) (of_nat a) == of_nat (a + list_sum l).
Proof.
  revert a. induction l as [|n l IH]; intros a; simpl.
  - rewrite Nat.add_0_r. reflexivity.
  - assert (E : fold_left Qplus (map of_nat l) (of_nat a + of_nat n)
                == fold_left Qplus (map of_nat l) (of_nat (a + n))).
    { clear IH. generalize (of_nat_plus a n).
      generalize (of_nat a + of_nat n) (of_nat (a + n)).
      induction (map of_nat l) as [|x xs IHx]; intros p q Hpq; simpl.
      - symmetry; exact Hpq.
      - apply IHx. rewrite Hpq. reflexivity. }
    rewrite E, IH. rewrite Nat.add_assoc. reflexivity.
Qed.

Lemma sum_floats_of_nat (l : list nat) :
  sum_floats (map of_nat l) == of_nat (list_sum l).
Proof. exact (fold_Qplus_of_nat l 0). Qed.

Lemma of_nat_zero (n : nat) : Qeq_bool (of_nat n) 0 = false -> (0 < n)%nat.
Proof.
  destruct n as [|n]; [|lia]. intros H.
  assert (E : Qeq_bool (of_nat 0) 0 = true) by reflexivity. congruence.
Qed.

Lemma examples_positive (steps : list eval_step) :
  Qeq_bool (sum_floats (map (e_examples shape) steps)) 0 = false ->
  (0 < list_sum (map (fun s => size shape (e_y_dev s)) steps))%nat.
Proof.
  intros H. apply of_nat_zero.
  destruct (Qeq_bool (of_nat (list_sum (map (fun s => size shape
      (e_y_dev s)) steps))) 0)
    eqn:E; [|reflexivity].
  apply Qeq_bool_iff in E. rewrite <- sum_floats_of_nat, map_map in E.
  apply Qeq_bool_iff in E. unfold e_examples in H. congruence.
Qed.

(** C2. When [evaluate_accuracy_gpu] returns, the batches went to the
    device [ctx], or with no [ctx] to the first device of the network's
    first parameter; each batch of the iterator was moved there, both
    arrays, before the network was invoked on the moved array; and the
    value returned is the sum of the batches' correct counts divided by
    the sum of their example counts. *)
Theorem evaluate_accuracy_gpu_fraction
        (net : Block) (data_iter : DataIter) (ctx : option Context)
        (w w' : World) (r : Q) (t : list event) :
  run framework (evaluate_accuracy_gpu shape net data_iter ctx) w =
      (Ok r, w', t) ->
  exists dev hd steps,
    device_choice net ctx dev hd /\
    t = hd ++ returned (Iter data_iter) (map e_batch steps)
           :: flat_map (eval_step_events net dev) steps /\
    r = sum_floats (map e_correct steps)
        / sum_floats (map (e_examples shape) steps).
Proof.
  intros H. apply evaluate_accuracy_gpu_inv in H.
  destruct H as (dev & hd & steps & Hdev & Ht & _ & Hr).
  exists dev, hd, steps. auto.
Qed.

Lemma accuracy_results_lookup (net : Block) (ctx : option Context)
      (dev : Context) (hd : list event) :
  device_choice net ctx dev hd -> accuracy_results shape hd = [].
Proof. destruct 1; reflexivity. Qed.

Lemma accuracy_results_eval (net : Block) (dev : Context)
      (steps : list eval_step) :
  accuracy_results shape (flat_map (eval_step_events net dev) steps)
  = map (fun s => (e_correct s, size shape (e_y_dev s))) steps.
Proof.
  induction steps as [|s steps IH]; [reflexivity|].
  cbn [flat_map map]. unfold accuracy_results in *.
  rewrite flat_map_app, IH. reflexivity.
Qed.

(** What [d2l.accuracy] was given and returned in a completed
    evaluation. *)
Lemma accuracy_results_of_run (net : Block) (data_iter : DataIter)
      (ctx : option Context) (dev : Context) (hd : list event)
      (steps : list eval_step) :
  device_choice net ctx dev hd ->
  accuracy_results shape
    (hd ++ returned (Iter data_iter) (map e_batch steps)
        :: flat_map (eval_step_events net dev) steps)
  = map (fun s => (e_correct s, size shape (e_y_dev s))) steps.
Proof.
  intros Hdev. unfold accuracy_results. rewrite flat_map_app.
  fold (accuracy_results shape hd).
  rewrite (accuracy_results_lookup Hdev).
  cbn [app flat_map ev_call ev_resp returned].
  fold (accuracy_results shape (flat_map (eval_step_events net dev) steps)).
  apply accuracy_results_eval.
Qed.

(** C8. [evaluate_accuracy_gpu] returns a value only when the iterator
    yielded at least one example and, with no [ctx], when the network has
    a parameter.  In a run that returns, the labels given to
    [d2l.accuracy], which are the moved labels of the batches of the pass
    and whose sizes are what the accumulator counts, hold at least one
    example in all.  With an iterator that yields nothing it divides the
    empty accumulator, 0/0, and raises [ZeroDivisionError]; with no [ctx]
    and no parameter it indexes an empty list and raises [IndexError]. *)
Theorem evaluate_accuracy_gpu_preconditions
        (net : Block) (data_iter : DataIter) (ctx : option Context)
        (w : World) :
  (forall r w' t,
      run framework (evaluate_accuracy_gpu shape net data_iter ctx) w =
          (Ok r, w', t) ->
      (0 < list_sum (map snd (accuracy_results shape t)))%nat /\
      (exists dev hd steps,
          device_choice net ctx dev hd /\
          t = hd ++ returned (Iter data_iter) (map e_batch steps)
                 :: flat_map (eval_step_events net dev) steps /\
          steps <> [] /\
          (0 < list_sum (map (fun s => size shape (e_y_dev s)) steps))%nat) /\
      (ctx = None ->
       exists p params, In (returned (CollectParams net) (p :: params)) t)) /\
  (forall dev w1 hd w2,
      run framework (pick_device net ctx) w = (Ok dev, w1, hd) ->
      framework (Iter data_iter) w1 = (inr [], w2) ->
      run framework (evaluate_accuracy_gpu shape net data_iter ctx) w
      = (Err (Python ZeroDivisionError), w2,
         hd ++ [returned (Iter data_iter) []])) /\
  (forall w1,
      ctx = None ->
      framework (CollectParams net) w = (inr [], w1) ->
      run framework (evaluate_accuracy_gpu shape net data_iter ctx) w
      = (Err (Python IndexError), w1, [returned (CollectParams net) []])).
Proof.
  split; [|split].
  - intros r w' t H. apply evaluate_accuracy_gpu_inv in H.
    destruct H as (dev & hd & steps & Hdev & -> & Hz & _).
    pose proof (examples_positive _ Hz) as Hpos.
    split; [|split].
    + rewrite (accuracy_results_of_run data_iter steps Hdev), map_map.
      exact Hpos.
    + exists dev, hd, steps. split; [exact Hdev|]. split; [reflexivity|].
      split; [|exact Hpos]. intros ->. simpl in Hpos. lia.
    + intros ->. inversion Hdev as [|params p ctxs dev' Hp Hc]; subst.
      destruct params as [|[name p0] params]; [discriminate|].
      exists (name, p0), params. left. reflexivity.
  - intros dev w1 hd w2 Hdev Hiter.
    unfold evaluate_accuracy_gpu.
    rewrite run_bind, Hdev. simpl. rewrite Hiter. reflexivity.
  - intros w1 -> Hpar.
    unfold evaluate_accuracy_gpu, first_param_ctx.
    simpl. rewrite Hpar. reflexivity.
Qed.

(* ================================================================== *)
(** ** Errors *)
(* ================================================================== *)

(** C7. Neither function handles an error.  In every run of either, a
    call that fails is the last call made and what it raised is what the
    function raises; and a framework error raised by the function is the
    error of its last call.  The only other errors are Python's own
    ([pyerr]). *)
Theorem errors_propagate_unchanged
        (net : Block) (data_iter train_iter test_iter : DataIter)
        (octx : option Context) (num_epochs : nat) (lr : Q) (ctx : Context)
        (w : World) :
  (forall r w' t,
      run framework (evaluate_accuracy_gpu shape net data_iter octx) w =
          (r, w', t) ->
      (forall pre ev post e,
          t = pre ++ ev :: post -> failure ev = Some e ->
          post = [] /\ r = Err (Framework e)) /\
      (forall e, r = Err (Framework e) ->
                 exists pre ev, t = pre ++ [ev] /\ failure ev = Some e)) /\
  (forall r w' t,
      run framework
          (train_ch5 shape net train_iter test_iter num_epochs lr ctx) w
      = (r, w', t) ->
      (forall pre ev post e,
          t = pre ++ ev :: post -> failure ev = Some e ->
          post = [] /\ r = Err (Framework e)) /\
      (forall e, r = Err (Framework e) ->
                 exists pre ev, t = pre ++ [ev] /\ failure ev = Some e)).
Proof.
  split; intros r w' t H; split.
  - intros pre ev post e Ht F. eapply run_stops_at_failure; eauto.
  - intros e ->. eapply run_framework_error_origin; eauto.
  - intros pre ev post e Ht F. eapply run_stops_at_failure; eauto.
  - intros e ->. eapply run_framework_error_origin; eauto.
Qed.

(* ================================================================== *)
(** ** Counting in a trace *)
(* ================================================================== *)

Lemma count_app (p : event -> bool) (a b : list event) :
  count p (a ++ b) = (count p a + count p b)%nat.
Proof. unfold count. rewrite filter_app, length_app. reflexivity. Qed.

Lemma count_flat_map (A : Type) (p : event -> bool) (f : A -> list event)
      (l : list A) :
  count p (flat_map f l) = list_sum (map (fun a => count p (f a)) l).
Proof.
  induction l as [|a l IH]; simpl; [reflexivity|].
  rewrite count_app, IH. reflexivity.
Qed.

Lemma list_sum_const (A : Type) (f : A -> nat) (l : list A) (n : nat) :
  Forall (fun a => f a = n) l ->
  list_sum (map f l) = (n * List.length l)%nat.
Proof.
  induction 1 as [|a l Ha _ IH]; simpl; [lia|]. rewrite Ha, IH. lia.
Qed.

Section TraceOfTraining.

Variables (net : Block) (train_iter test_iter : DataIter)
          (num_epochs : nat) (lr : Q) (ctx : Context).
Variables (loss : Loss) (trainer : Trainer) (animator : Animator).

Lemma count_eval_steps (p : event -> bool) (dev : Context)
      (steps : list eval_step) :
  (forall s, count p (eval_step_events net dev s) = 0%nat) ->
  count p (flat_map (eval_step_events net dev) steps) = 0%nat.
Proof.
  intros H. rewrite count_flat_map.
  rewrite list_sum_const with (n := 0%nat); [reflexivity|].
  apply Forall_forall. intros s _. apply H.
Qed.

Lemma steps_in_train_step (epoch : nat) (s : train_step) :
  count is_step (train_step_events net train_iter ctx loss trainer animator
                                   epoch s) = 1%nat.
Proof.
  unfold train_step_events, plot_events.
  destruct ((t_index s + 1) mod 50 =? 0)%nat; reflexivity.
Qed.

Lemma steps_in_train_events (ep : epoch_run) :
  count is_step (train_events net train_iter ctx loss trainer animator ep)
  = List.length (ep_steps ep).
Proof.
  unfold train_events. change (?x :: ?l) with ([x] ++ l).
  rewrite count_app, count_flat_map.
  rewrite list_sum_const with (n := 1%nat).
  - simpl. lia.
  - apply Forall_forall. intros s _. apply steps_in_train_step.
Qed.

Lemma records_in_train_events (ep : epoch_run) :
  count is_test_record
        (train_events net train_iter ctx loss trainer animator ep)
  = 0%nat.
Proof.
  unfold train_events. change (?x :: ?l) with ([x] ++ l).
  rewrite count_app, count_flat_map.
  rewrite list_sum_const with (n := 0%nat); [reflexivity|].
  apply Forall_forall. intros s _.
  unfold train_step_events, plot_events.
  destruct ((t_index s + 1) mod 50 =? 0)%nat; reflexivity.
Qed.

Lemma test_events_counts (ep : epoch_run) :
  device_choice net None (ep_dev ep) (ep_lookup ep) ->
  count is_step (test_events net test_iter animator ep) = 0%nat /\
  count is_backward (test_events net test_iter animator ep) = 0%nat /\
  count is_test_record (test_events net test_iter animator ep) = 1%nat.
Proof.
  intros Hdev. unfold test_events.
  change (?x :: ?l) with ([x] ++ l).
  rewrite !count_app.
  rewrite !count_eval_steps by (intros; reflexivity).
  inversion Hdev; subst. repeat split; reflexivity.
Qed.



End TraceOfTraining.

(* ================================================================== *)
(** ** Properties of [train_ch5] *)
(* ================================================================== *)

Section TrainCh5Properties.

Variables (net : Block) (train_iter test_iter : DataIter)
          (num_epochs : nat) (lr : Q) (ctx : Context).

Lemma steps_in_epochs (loss : Loss) (trainer : Trainer)
      (animator : Animator) (eps : list epoch_run) :
  Forall (epoch_ok shape net) eps ->
  count is_step
        (flat_map (epoch_events net train_iter test_iter ctx
                                loss trainer animator) eps)
  = list_sum (map (fun ep => List.length (ep_steps ep)) eps).
Proof.
  induction 1 as [|ep eps Hok _ IH]; [reflexivity|].
  cbn [flat_map map list_sum]. rewrite count_app, IH.
  unfold epoch_events. rewrite count_app, steps_in_train_events.
  destruct (test_events_counts test_iter animator ep (ok_device Hok))
    as (-> & _ & _). simpl list_sum. lia.
Qed.

Lemma records_in_epochs (loss : Loss) (trainer : Trainer)
      (animator : Animator) (eps : list epoch_run) :
  Forall (epoch_ok shape net) eps ->
  count is_test_record
        (flat_map (epoch_events net train_iter test_iter ctx
                                loss trainer animator) eps)
  = List.length eps.
Proof.
  induction 1 as [|ep eps Hok _ IH]; [reflexivity|].
  cbn [flat_map List.length]. rewrite count_app, IH.
  unfold epoch_events. rewrite count_app, records_in_train_events.
  destruct (test_events_counts test_iter animator ep (ok_device Hok))
    as (_ & _ & ->). lia.
Qed.

(** C3. Every run of [train_ch5] starts by re-initializing the network:
    [force_reinit], on [ctx], with Xavier.  A run that completes went on
    to build the softmax cross-entropy loss and a trainer over the
    network's parameters with optimizer 'sgd' and the learning rate as
    its only setting; then, epoch by epoch and batch by batch, it moved
    X and y to [ctx], ran the network and the loss on the moved arrays
    under recording, ran backward on the loss, and took one optimizer
    step with the moved batch's first dimension.  There is no other
    optimizer step: their number is the number of batches. *)
Theorem train_ch5_sgd_steps (w : World) :
  (exists resp rest,
      snd (run framework
               (train_ch5 shape net train_iter test_iter num_epochs lr ctx) w)
      = Ev (Initialize net true (Some ctx) (Some Xavier)) resp :: rest) /\
  (forall u w' t,
      run framework
          (train_ch5 shape net train_iter test_iter num_epochs lr ctx) w
      = (Ok u, w', t) ->
      exists loss params trainer animator t0 eps rest,
        t = setup_events net num_epochs lr ctx loss params trainer
                         animator t0
            ++ flat_map (epoch_events net train_iter test_iter ctx
                                      loss trainer animator) eps
            ++ rest /\
        List.length eps = num_epochs /\
        Forall (fun ep => Forall (step_sized shape) (ep_steps ep)) eps /\
        count is_step t
        = list_sum (map (fun ep => List.length (ep_steps ep)) eps)).
Proof.
  split.
  - unfold train_ch5, train_setup. cbn [bind do_call].
    apply run_first_call.
  - intros u w' t H. apply train_ch5_inv in H.
    destruct H as (loss & params & trainer & animator & t0 & eps & L & A
                   & T & E & tp & His & Hoks & -> & _).
    exists loss, params, trainer, animator, t0, eps,
      (summary_events ctx L A T tp).
    split; [reflexivity|]. split.
    { rewrite <- (length_map ep_index), His. apply length_seq. }
    split.
    { eapply Forall_impl; [|exact Hoks]. intros ep Hok. apply Hok. }
    rewrite !count_app, steps_in_epochs by exact Hoks.
    change (count is_step (setup_events net num_epochs lr ctx loss params
                                        trainer animator t0)) with 0%nat.
    change (count is_step (summary_events ctx L A T tp)) with 0%nat.
    lia.
Qed.


(** C5 (as amended). The accumulator of the training loop holds running
    sums of the loss, the correct predictions and the examples.  Each
    batch adds to it once, what [l.sum()] and [d2l.accuracy] returned and
    the batch's first dimension, and it is read after every batch, not at
    the end of the epoch: [train_loss] and [train_acc] are then its first
    two sums divided by the third.  Each epoch starts a new one: whatever
    the accumulator held before, after the epoch it holds the sums over
    this epoch's batches alone.  When the epoch had a batch, [train_loss]
    and [train_acc] are the loss sum and the correct count divided by the
    epoch's example count; when it had none, the new accumulator, which
    holds zeros, has not been read, and [train_loss] and [train_acc] are
    what they were before the epoch. *)
Theorem accumulator_per_epoch (loss : Loss) (trainer : Trainer)
        (animator : Animator) :
  (forall epoch i b st st' m w w' t,
      run framework
          (train_batch shape net train_iter ctx loss trainer animator epoch st i
           b) w = (Ok st', w', t) ->
      metric st = Some m ->
      exists s,
        t_batch s = b /\ t_index s = i /\
        t = train_step_events net train_iter ctx loss trainer animator
                              epoch s /\
        metric st' = Some (add m [t_l_sum s; t_acc s; of_nat (t_n s)]) /\
        rates_of (data (add m [t_l_sum s; t_acc s; of_nat (t_n s)])) st') /\
  (forall epoch st st' w w' t,
      run framework
          (train_epoch shape net train_iter test_iter ctx loss trainer animator
           st epoch) w = (Ok st', w', t) ->
      exists ep,
        epoch_ok shape net ep /\
        t = epoch_events net train_iter test_iter ctx loss trainer
                         animator ep /\
        option_map data (metric st')
        = Some [ep_loss_sum ep; ep_acc_sum ep; ep_examples ep] /\
        (ep_steps ep <> [] ->
         train_loss st' = Some (ep_loss_sum ep / ep_examples ep) /\
         train_acc st' = Some (ep_acc_sum ep / ep_examples ep)) /\
        (ep_steps ep = [] ->
         option_map data (metric st') = Some [0; 0; 0] /\
         train_loss st' = train_loss st /\
         train_acc st' = train_acc st)).
Proof.
  split.
  - intros epoch i b st st' m w w' t H Hmet.
    eapply train_batch_inv in H; [|exact Hmet].
    destruct H as (s & Hi & Hb & Ht & _ & Hm & _ & _ & Hr).
    exists s. auto.
  - intros epoch st st' w w' t H. apply train_epoch_inv in H.
    destruct H as (ep & _ & Hok & Ht & Hm & _ & _ & Hl & Ha).
    exists ep. split; [exact Hok|]. split; [exact Ht|]. split; [exact Hm|].
    split.
    + intros Hne. rewrite Hl, Ha. unfold rate_after.
      destruct (ep_steps ep); [congruence|]. auto.
    + intros He. rewrite Hm, Hl, Ha.
      unfold rate_after, ep_sums, ep_loss_sum, ep_acc_sum, ep_examples.
      rewrite He. auto.
Qed.

End TrainCh5Properties.

(* ================================================================== *)
(** ** What the notebook prints *)
(* ================================================================== *)

Lemma shape_loop_inv (ls : list Block) (X X' : NDArray) (w w' : World)
      (t : list event) :
  run framework (for_each ls (inspect_layer shape) X) w = (Ok X', w', t) ->
  exists steps,
    map s_layer steps = ls /\ chained X steps X' /\
    t = flat_map (layer_step_events shape) steps.
Proof.
  revert X w t. induction ls as [|layer ls IH]; intros X w t H;
    cbn [for_each] in H.
  - done_run H. exists []. simpl. auto.
  - peel H as X1 Hl. unfold inspect_layer in Hl.
    peel Hl as out Hf. peel Hl as u Hp. destruct u. done_run Hl.
    apply IH in H. destruct H as (steps & <- & Hch & ->).
    exists ({| s_layer := layer; s_in := X; s_out := out |} :: steps).
    simpl. auto.
Qed.

Lemma printed_app (a b : list event) :
  printed (a ++ b) = printed a ++ printed b.
Proof. unfold printed. apply flat_map_app. Qed.

Lemma printed_flat_map_nil (A : Type) (f : A -> list event) (l : list A) :
  (forall a, In a l -> printed (f a) = []) -> printed (flat_map f l) = [].
Proof.
  induction l as [|a l IH]; intros H; simpl; [reflexivity|].
  rewrite printed_app, H, IH;
    [reflexivity | intros b Hb; apply H; right; exact Hb | left; reflexivity].
Qed.

Lemma printed_layer_steps (steps : list layer_step) :
  printed (flat_map (layer_step_events shape) steps) = map
      (layer_print shape) steps.
Proof.
  induction steps as [|s steps IH]; simpl; [reflexivity|].
  f_equal. exact IH.
Qed.

Lemma printed_epochs (net : Block) (train_iter test_iter : DataIter)
      (ctx : Context) (loss : Loss) (trainer : Trainer) (animator : Animator)
      (eps : list epoch_run) :
  Forall (epoch_ok shape net) eps ->
  printed (flat_map (epoch_events net train_iter test_iter ctx
                                  loss trainer animator) eps) = [].
Proof.
  intros Hoks. apply printed_flat_map_nil. intros ep Hin.
  rewrite Forall_forall in Hoks. specialize (Hoks ep Hin).
  unfold epoch_events, train_events, test_events.
  change (?x :: ?l) with ([x] ++ l). rewrite !printed_app.
  rewrite !printed_flat_map_nil.
  - destruct (ok_device Hoks); reflexivity.
  - intros s _. reflexivity.
  - intros s _. unfold train_step_events, plot_events.
    destruct ((t_index s + 1) mod 50 =? 0)%nat; reflexivity.
Qed.

(** C6 (as amended). What the notebook shows is what it prints and
    plots.  A completed shape inspection printed one line per layer of
    the network, in order: the layer's name, 'output shape:' and the shape
    of what the layer returned; for [net] that is seven lines.  A
    completed [train_ch5] printed two lines and nothing else, as its last
    two calls: loss, training accuracy and test accuracy on the first,
    the throughput and the device on the second. *)
Theorem printed_output :
  (forall net0 w X w' t,
      run framework (shape_inspection shape net0) w = (Ok X, w', t) ->
      exists X0 steps,
        map s_layer steps = layers net0 /\ chained X0 steps X /\
        t = [ returned (RandomUniform [1; 1; 28; 28]%nat) X0;
              returned (Initialize net0 false None None) tt ]
            ++ flat_map (layer_step_events shape) steps /\
        printed t = map (layer_print shape) steps) /\
  (forall w X w' t,
      run framework (shape_inspection shape net) w = (Ok X, w', t) ->
      List.length (printed t) = 7%nat) /\
  (forall net0 train_iter test_iter num_epochs lr ctx w u w' t,
      run framework
          (train_ch5 shape net0 train_iter test_iter num_epochs lr ctx) w
      = (Ok u, w', t) ->
      exists pre L A T tp,
        t = pre ++ summary_events ctx L A T tp /\
        printed t
        = [ Format "loss %.3f, train acc %.3f, test acc %.3f"
                   [PFloat L; PFloat A; PFloat T];
            Format "%.1f exampes/sec on %s" [PFloat tp; PCtx ctx] ]).
Proof.
  assert (Hshape : forall net0 w X w' t,
             run framework (shape_inspection shape net0) w = (Ok X, w', t) ->
             exists X0 steps,
               map s_layer steps = layers net0 /\ chained X0 steps X /\
               t = [ returned (RandomUniform [1; 1; 28; 28]%nat) X0;
                     returned (Initialize net0 false None None) tt ]
                   ++ flat_map (layer_step_events shape) steps /\
               printed t = map (layer_print shape) steps).
  { intros net0 w X w' t H. unfold shape_inspection in H.
    peel H as X0 Hx. peel H as u Hi. destruct u.
    apply shape_loop_inv in H. destruct H as (steps & Hl & Hch & ->).
    exists X0, steps. split; [exact Hl|]. split; [exact Hch|].
    split; [reflexivity|].
    change ([?a] ++ [?b] ++ ?l) with ([a; b] ++ l).
    rewrite printed_app, printed_layer_steps. reflexivity. }
  split; [exact Hshape|]. split.
  - intros w X w' t H. apply Hshape in H.
    destruct H as (X0 & steps & Hl & _ & _ & ->).
    rewrite length_map, <- (length_map s_layer), Hl. reflexivity.
  - intros net0 train_iter test_iter num_epochs lr ctx w u w' t H.
    apply train_ch5_inv in H.
    destruct H as (loss & params & trainer & animator & t0 & eps & L & A
                   & T & E & tp & His & Hoks & -> & _).
    eexists _, L, A, T, tp. split.
    + rewrite app_assoc. reflexivity.
    + rewrite !printed_app, printed_epochs by exact Hoks. reflexivity.
Qed.

(* ================================================================== *)
(** ** What the final summary shows *)
(* ================================================================== *)

Lemma rate_after_pick (total : epoch_run -> Q) (eps : list epoch_run)
      (init : option epoch_run) :
  fold_left (rate_after total) eps (option_map (ep_rate total) init)
  = option_map (ep_rate total) (fold_left pick_trained eps init).
Proof.
  revert init. induction eps as [|ep eps IH]; intros init; simpl.
  - reflexivity.
  - unfold rate_after at 2, pick_trained at 2.
    destruct (ep_steps ep); [apply IH|]. exact (IH (Some ep)).
Qed.

Lemma pick_trained_split (eps : list epoch_run) (init : option epoch_run)
      (ep : epoch_run) :
  fold_left pick_trained eps init = Some ep ->
  (init = Some ep /\ Forall (fun e => ep_steps e = []) eps) \/
  (exists earlier later,
      eps = earlier ++ ep :: later /\ ep_steps ep <> [] /\
      Forall (fun e => ep_steps e = []) later).
Proof.
  induction eps as [|x eps IH] using rev_ind; simpl.
  - intros ->. left. auto.
  - rewrite fold_left_app. simpl. unfold pick_trained at 1.
    destruct (ep_steps x) as [|s0 ss] eqn:Ex.
    + intros H. destruct (IH H) as [[Hi Hall]|(earlier & later & ->
        & Hne & Hall)].
      * left. split; [exact Hi|]. apply Forall_app. auto.
      * right. exists earlier, (later ++ [x]).
        rewrite <- app_assoc. split; [reflexivity|]. split; [exact Hne|].
        apply Forall_app. auto.
    + intros [= ->]. right. exists eps, []. split; [reflexivity|].
      split; [congruence|constructor].
Qed.

Lemma last_trained_rates (total : epoch_run -> Q) (eps : list epoch_run)
      (r : Q) :
  fold_left (rate_after total) eps None = Some r ->
  exists ep, last_trained eps = Some ep /\ r = ep_rate total ep.
Proof.
  intros H. change (@None Q) with (option_map (ep_rate total) None) in H.
  rewrite rate_after_pick in H. fold (last_trained eps) in H.
  destruct (last_trained eps) as [ep|]; [|discriminate].
  injection H as <-. eauto.
Qed.

Lemma fold_Qplus_const (A : Type) (f : A -> Q) (l : list A) (a c : Q) :
  (forall x, In x l -> f x == c) ->
  fold_left Qplus (map f l) a == a + of_nat (List.length l) * c.
Proof.
  revert a. induction l as [|x l IH]; intros a H.
  - simpl. unfold of_nat. simpl. ring.
  - cbn [map fold_left List.length]. rewrite IH.
    + rewrite (H x) by (left; reflexivity).
      change (Datatypes.S (List.length l)) with (1 + List.length l)%nat.
      rewrite of_nat_plus. change (of_nat 1) with 1. ring.
    + intros y Hy. apply H. right. exact Hy.
Qed.

Lemma Qdiv_same_divisor (a b d : Q) : ~ d == 0 -> (a / d == b / d <-> a == b).
Proof.
  intros Hd. split; intros H.
  - rewrite <- (Qmult_div_r a d Hd), <- (Qmult_div_r b d Hd), H. reflexivity.
  - rewrite H. reflexivity.
Qed.

Section Summary.

Variables (net : Block) (train_iter test_iter : DataIter)
          (num_epochs : nat) (lr : Q) (ctx : Context).

(** C10 (as amended). In the final summary of a completed [train_ch5],
    the loss and the training accuracy are the averages over the
    examples of one epoch only, the last one that processed a batch
    (so the last epoch, whenever it processes one).  The throughput is
    the last epoch's example count times [num_epochs] divided by the
    total measured time.  It equals the overall examples per second
    exactly when that product equals the number of examples all epochs
    processed, as it does when every epoch processes the same number. *)
Theorem final_summary_values (w w' : World) (u : unit) (t : list event) :
  run framework (train_ch5 shape net train_iter test_iter num_epochs lr ctx) w
  = (Ok u, w', t) ->
  exists loss params trainer animator t0 eps L A T tp,
    t = setup_events net num_epochs lr ctx loss params trainer animator t0
        ++ flat_map (epoch_events net train_iter test_iter ctx
                                  loss trainer animator) eps
        ++ summary_events ctx L A T tp /\
    List.length eps = num_epochs /\
    (exists earlier ep later,
        eps = earlier ++ ep :: later /\ ep_steps ep <> [] /\
        Forall (fun e => ep_steps e = []) later /\
        L = ep_loss_sum ep / ep_examples ep /\
        A = ep_acc_sum ep / ep_examples ep) /\
    (exists before last,
        eps = before ++ [last] /\
        tp = ep_examples last * of_nat num_epochs
             / sum_floats (all_times eps) /\
        (tp == overall_rate eps <->
         ep_examples last * of_nat num_epochs
         == sum_floats (map ep_examples eps)) /\
        ((forall e, In e eps -> ep_examples e == ep_examples last) ->
         tp == overall_rate eps)).
Proof.
  intros H. apply train_ch5_inv in H.
  destruct H as (loss & params & trainer & animator & t0 & eps & L & A
                 & T & E & tp & His & Hoks & -> & HL & HA & HT & HE
                 & Hz & ->).
  assert (Hlen : List.length eps = num_epochs).
  { rewrite <- (length_map ep_index), His. apply length_seq. }
  exists loss, params, trainer, animator, t0, eps, L, A, T,
    (E * of_nat num_epochs / sum_floats (all_times eps)).
  split; [reflexivity|]. split; [exact Hlen|]. split.
  - apply last_trained_rates in HL. destruct HL as (ep & Hep & ->).
    apply last_trained_rates in HA. destruct HA as (ep' & Hep' & ->).
    assert (ep' = ep) as -> by congruence.
    apply pick_trained_split in Hep.
    destruct Hep as [[Hi _]|(earlier & later & -> & Hne & Hall)];
      [discriminate|].
    exists earlier, ep, later. auto.
  - assert (Hne : eps <> []).
    { intros ->. discriminate. }
    unfold last_of in HE. eapply fold_last_Some in HE; [|exact Hne].
    destruct HE as (before & last & Heps & ->).
    exists before, last. split; [exact Heps|]. split; [reflexivity|].
    assert (Hd : ~ sum_floats (all_times eps) == 0).
    { intros Hq. apply Qeq_bool_iff in Hq. congruence. }
    assert (Hiff : ep_examples last * of_nat num_epochs
                   / sum_floats (all_times eps) == overall_rate eps <->
                   ep_examples last * of_nat num_epochs
                   == sum_floats (map ep_examples eps)).
    { unfold overall_rate. apply Qdiv_same_divisor. exact Hd. }
    split; [exact Hiff|].
    intros Hall. apply Hiff. unfold sum_floats.
    rewrite (fold_Qplus_const ep_examples eps 0 Hall), Hlen. ring.
Qed.

(** C9 (as amended). [train_ch5] completes only if some pass over the
    training iterator yielded a batch, in any epoch: a run in which every
    pass over it was empty does not complete.  [train_loss] and
    [train_acc] are assigned in the batch loop only: after an epoch
    loop in which every pass over the training iterator was empty they
    are still unassigned, so the final [print] raises
    [UnboundLocalError]; the timer has then measured nothing, so the
    throughput expression, which is not reached, divides by zero. *)
Theorem train_ch5_needs_a_batch :
  (forall w u w' t,
      run framework
          (train_ch5 shape net train_iter test_iter num_epochs lr ctx) w
      = (Ok u, w', t) ->
      exists b bs, In (returned (Iter train_iter) (b :: bs)) t) /\
  (forall loss trainer animator st0 st n w w' t sel,
      train_loss st0 = None -> train_acc st0 = None ->
      times (timer st0) = [] ->
      run framework
          (for_each (seq 0 n) (train_epoch shape net train_iter test_iter ctx
           loss trainer animator) st0) w
      = (Ok st, w', t) ->
      sel train_iter = true ->
      Forall (fun bs => bs = []) (passes sel t) ->
      train_summary num_epochs ctx st
      = Raise (UnboundLocalError "train_loss") /\
      timer_sum (timer st) = 0 /\
      ((0 < n)%nat ->
       examples_per_sec num_epochs st = Raise ZeroDivisionError)) /\
  (forall w r w' t sel,
      run framework
          (train_ch5 shape net train_iter test_iter num_epochs lr ctx) w
      = (r, w', t) ->
      sel train_iter = true ->
      Forall (fun bs => bs = []) (passes sel t) ->
      forall u, r <> Ok u).
Proof.
  assert (Hsome : forall w u w' t,
             run framework
                 (train_ch5 shape net train_iter test_iter num_epochs lr ctx) w
             = (Ok u, w', t) ->
             exists b bs, In (returned (Iter train_iter) (b :: bs)) t);
    [|split; [exact Hsome|split]].
  - intros w u w' t H. apply train_ch5_inv in H.
    destruct H as (loss & params & trainer & animator & t0 & eps & L & A
                   & T & E & tp & His & Hoks & -> & HL & _).
    apply last_trained_rates in HL. destruct HL as (ep & Hep & _).
    apply pick_trained_split in Hep.
    destruct Hep as [[Hi _]|(earlier & later & -> & Hne & _)];
      [discriminate|].
    destruct (ep_steps ep) as [|s ss] eqn:Es; [congruence|].
    exists (t_batch s), (map t_batch ss).
    apply in_or_app. right. apply in_or_app. left.
    rewrite flat_map_app. apply in_or_app. right. simpl.
    left. rewrite Es. reflexivity.
  - intros loss trainer animator st0 st n w w' t sel Hl0 Ha0 Ht0 H Hsel
           Hempty.
    apply train_epochs_inv in H.
    destruct H as (eps & His & Hoks & -> & Htimes & Hl & Ha & Hmet & _).
    assert (Hall : Forall (fun ep => ep_steps ep = []) eps).
    { clear - Hsel Hempty. induction eps as [|ep eps IH]; [constructor|].
      cbn [flat_map] in Hempty. unfold passes in Hempty.
      rewrite flat_map_app in Hempty. apply Forall_app in Hempty.
      destruct Hempty as [Hep Hrest]. constructor; [|exact (IH Hrest)].
      unfold epoch_events, train_events in Hep. cbn in Hep.
      rewrite Hsel in Hep. apply Forall_inv in Hep.
      destruct (ep_steps ep); [reflexivity|discriminate]. }
    assert (Hloss : train_loss st = None).
    { rewrite Hl, Hl0. clear - Hall.
      induction Hall as [|ep eps Hep _ IH]; simpl; [reflexivity|].
      unfold rate_after at 2. rewrite Hep. exact IH. }
    assert (Htime : times (timer st) = []).
    { rewrite Htimes, Ht0. unfold all_times. simpl. clear - Hall.
      induction Hall as [|ep eps Hep _ IH]; simpl; [reflexivity|].
      unfold ep_times at 1. rewrite Hep. exact IH. }
    split; [|split].
    + unfold train_summary. rewrite Hloss. reflexivity.
    + unfold timer_sum. rewrite Htime. reflexivity.
    + intros Hn. assert (Hne : eps <> []).
      { intros ->. simpl in His. destruct n; [lia|discriminate]. }
      destruct (exists_last Hne) as (before & last & ->).
      rewrite fold_left_app in Hmet. cbn [fold_left] in Hmet.
      unfold examples_per_sec, getitem, timer_sum. rewrite Htime.
      destruct (metric st) as [m|]; [|discriminate].
      injection Hmet as Hdata. cbn [read bind].
      rewrite Hdata. reflexivity.
  - intros w r w' t sel H Hsel Hempty u ->.
    destruct (Hsome _ _ _ _ H) as (b & bs & Hin).
    apply in_split in Hin. destruct Hin as (l1 & l2 & ->).
    unfold passes in Hempty. rewrite flat_map_app in Hempty.
    apply Forall_app in Hempty. destruct Hempty as [_ Hempty].
    cbn in Hempty. rewrite Hsel in Hempty.
    apply Forall_inv in Hempty. discriminate.
Qed.

End Summary.

(* ================================================================== *)
(** ** An evaluation only evaluates *)
(* ================================================================== *)

(** X1. Whatever the network, the loader and the framework, and however
    the run ends, [evaluate_accuracy_gpu] makes no call but these: the
    lookup of the parameters' device, a pass over the loader, moving an
    array to a device, the network outside [autograd.record], and
    [d2l.accuracy].  It does not initialize, compute a loss, run backward,
    step an optimizer, print or plot.  With a [ctx] given it does not
    consult the parameters, by [collect_params] or by [list_ctx], and
    every array it moves goes to [ctx]. *)
Theorem evaluate_accuracy_gpu_only_infers
        (net : Block) (data_iter : DataIter) (w : World) :
  (forall ctx,
      forallb is_inference
              (snd (run framework
                        (evaluate_accuracy_gpu shape net data_iter ctx) w))
      = true) /\
  (forall c,
      count is_param_lookup
            (snd (run framework
                      (evaluate_accuracy_gpu shape net data_iter (Some c)) w))
      = 0%nat /\
      Forall (eq c)
             (devices
                (snd (run framework
                          (evaluate_accuracy_gpu shape net data_iter (Some c))
                          w)))).
Proof.
  split; [|split].
  - intros ctx. apply always_forallb. calls.
  - apply always_count. unfold evaluate_accuracy_gpu, pick_device. calls.
  - apply devices_all. apply always_run.
    unfold evaluate_accuracy_gpu, pick_device. cbn [bind]. calls.
Qed.

(* ================================================================== *)
(** ** What [train_ch5] calls, and when *)
(* ================================================================== *)

Lemma count_first_call (p : event -> bool) (A T : Type) (c : call T)
      (k : T -> prog A) (w : World) :
  (forall resp, p (Ev c resp) = true) ->
  (forall v, always (fun e => p e = false) (k v)) ->
  count p (snd (run framework (Do c k) w)) = 1%nat.
Proof.
  intros Hc Hk. simpl. destruct (framework c w) as [[e|v] w1]; simpl.
  - unfold count, raised. simpl. rewrite Hc. reflexivity.
  - pose proof (always_count p w1 (Hk v)) as H0.
    destruct (run framework (k v) w1) as [[r w2] t]. simpl in *.
    unfold count, returned in *. simpl. rewrite Hc. simpl. rewrite H0.
    reflexivity.
Qed.

Section TrainCh5Calls.

Variables (net : Block) (train_iter test_iter : DataIter)
          (num_epochs : nat) (lr : Q) (ctx : Context).

(** X2. Every run of [train_ch5], however it ends, initializes the
    network once: the call it starts with is the only one.  The
    parameters are not initialized again between epochs or after a
    failure. *)
Theorem train_ch5_initializes_once (w : World) :
  count is_initialize
        (snd (run framework
                  (train_ch5 shape net train_iter test_iter num_epochs lr ctx)
                  w))
  = 1%nat.
Proof.
  unfold train_ch5, train_setup. cbn [bind do_call].
  apply count_first_call; [reflexivity|].
  intros u. calls.
Qed.

(** X3. [train_ch5] prints at its end only.  In every run, however it
    ends, a [print] is called only after the loop has gone through all
    [num_epochs] epochs, each with its recording of the test accuracy:
    the calls of the run split into those before, none of which is a
    [print], and the [print] calls.  A run that fails during the setup or
    in an epoch has printed nothing. *)
Theorem train_ch5_prints_at_the_end (w w' : World) (r : outcome unit)
        (t : list event) :
  run framework (train_ch5 shape net train_iter test_iter num_epochs lr ctx) w
  = (r, w', t) ->
  printed t <> [] ->
  exists pre post,
    t = pre ++ post /\ printed pre = [] /\
    count is_test_record pre = num_epochs /\
    forallb is_print post = true.
Proof.
  assert (Hsetup : forall w0,
             count is_print
                   (snd (run framework (train_setup net num_epochs lr ctx) w0))
             = 0%nat /\
             count is_test_record
                   (snd (run framework (train_setup net num_epochs lr ctx) w0))
             = 0%nat).
  { intros w0. split; apply always_count; calls. }
  assert (Hloop : forall loss trainer animator st w0,
             count is_print
                   (snd (run framework
                             (for_each (seq 0 num_epochs)
                                (train_epoch shape net train_iter test_iter ctx
                                             loss trainer animator) st) w0))
             = 0%nat).
  { intros. apply always_count. calls. }
  assert (Hsum : forall st w0,
             forallb is_print
                     (snd (run framework (train_summary num_epochs ctx st) w0))
             = true).
  { intros. apply always_forallb. calls. }
  unfold train_ch5. rewrite run_bind. intros H Hp.
  specialize (Hsetup w).
  destruct (run framework (train_setup net num_epochs lr ctx) w)
    as [[[su|e] w1] t1] eqn:Esu; cbn [snd] in Hsetup.
  2: { injection H as <- <- <-. destruct Hp.
       apply printed_no_print, Hsetup. }
  destruct su as [[[loss trainer] animator] st]. rewrite run_bind in H.
  specialize (Hloop loss trainer animator st w1).
  destruct (run framework
              (for_each (seq 0 num_epochs)
                 (train_epoch shape net train_iter test_iter ctx
                              loss trainer animator) st) w1)
    as [[[st'|e] w2] t2] eqn:El; cbn [snd] in Hloop.
  2: { injection H as <- <- <-. destruct Hp.
       apply printed_no_print. rewrite count_app.
       rewrite (proj1 Hsetup), Hloop. reflexivity. }
  specialize (Hsum st' w2).
  destruct (run framework (train_summary num_epochs ctx st') w2)
    as [[r3 w3] t3] eqn:Es; cbn [snd] in Hsum.
  injection H as <- <- <-.
  exists (t1 ++ t2), t3.
  split; [apply app_assoc|]. split; [|split; [|exact Hsum]].
  - apply printed_no_print. rewrite count_app.
    rewrite (proj1 Hsetup), Hloop. reflexivity.
  - rewrite count_app, (proj2 Hsetup).
    apply train_epochs_inv in El.
    destruct El as (eps & His & Hoks & -> & _).
    rewrite records_in_epochs by exact Hoks.
    rewrite <- (length_map ep_index), His, length_seq. reflexivity.
Qed.

End TrainCh5Calls.

(* ================================================================== *)
(** ** The accuracy is a fraction *)
(* ================================================================== *)

Lemma fold_Qplus_le (A : Type) (f g : A -> Q) (l : list A) (a b : Q) :
  a <= b -> Forall (fun x => f x <= g x) l ->
  fold_left Qplus (map f l) a <= fold_left Qplus (map g l) b.
Proof.
  intros Hab H. revert a b Hab.
  induction H as [|x l Hx _ IH]; intros a b Hab; simpl; [exact Hab|].
  apply IH. apply Qplus_le_compat; assumption.
Qed.

Lemma fold_Qplus_nonneg (A : Type) (f : A -> Q) (l : list A) (a : Q) :
  0 <= a -> Forall (fun x => 0 <= f x) l -> 0 <= fold_left Qplus (map f l) a.
Proof.
  intros Ha H. revert a Ha.
  induction H as [|x l Hx _ IH]; intros a Ha; simpl; [exact Ha|].
  apply IH. rewrite <- (Qplus_0_r 0). apply Qplus_le_compat; assumption.
Qed.

Lemma Qdiv_in_unit_interval (a b : Q) :
  0 <= a -> a <= b -> Qeq_bool b 0 = false -> 0 <= a / b <= 1.
Proof.
  intros Ha Hab Hb.
  assert (Hpos : 0 < b).
  { apply Qle_lteq in Hab. apply Qle_lteq in Ha.
    destruct Ha as [Ha|Ha]; destruct Hab as [Hab|Hab].
    - eapply Qlt_trans; eauto.
    - rewrite <- Hab. exact Ha.
    - rewrite Ha. exact Hab.
    - exfalso. apply Qeq_bool_neq in Hb. apply Hb.
      rewrite <- Hab, <- Ha. reflexivity. }
  split.
  - apply Qle_shift_div_l; [exact Hpos|]. rewrite Qmult_0_l. exact Ha.
  - apply Qle_shift_div_r; [exact Hpos|]. rewrite Qmult_1_l. exact Hab.
Qed.

(** X4. When every call of [d2l.accuracy] returned a count, a number
    between 0 and the number of labels it was given, the value that
    [evaluate_accuracy_gpu] returns is between 0 and 1. *)
Theorem evaluate_accuracy_gpu_in_unit_interval
        (net : Block) (data_iter : DataIter) (ctx : option Context)
        (w w' : World) (r : Q) (t : list event) :
  run framework (evaluate_accuracy_gpu shape net data_iter ctx) w
  = (Ok r, w', t) ->
  forallb is_count (accuracy_results shape t) = true ->
  0 <= r <= 1.
Proof.
  intros H Hc. apply evaluate_accuracy_gpu_inv in H.
  destruct H as (dev & hd & steps & Hdev & -> & Hex & ->).
  unfold accuracy_results in Hc. rewrite flat_map_app in Hc.
  fold (accuracy_results shape hd) in Hc.
  rewrite (accuracy_results_lookup Hdev) in Hc.
  cbn [app flat_map ev_call ev_resp returned] in Hc.
  fold (accuracy_results shape
          (flat_map (eval_step_events net dev) steps)) in Hc.
  rewrite accuracy_results_eval in Hc.
  assert (Hall : Forall (fun s => 0 <= e_correct s /\
                                  e_correct s <= e_examples shape s) steps).
  { clear - Hc. induction steps as [|s steps IH]; [constructor|].
    cbn [map forallb] in Hc. apply andb_true_iff in Hc.
    destruct Hc as [Hs Hc]. constructor; [|exact (IH Hc)].
    unfold is_count in Hs. cbn [fst snd] in Hs.
    apply andb_true_iff in Hs. destruct Hs as [H0 H1].
    apply Qle_bool_iff in H0. apply Qle_bool_iff in H1. split; assumption. }
  unfold sum_floats in *. apply Qdiv_in_unit_interval.
  - apply fold_Qplus_nonneg; [apply Qle_refl|].
    eapply Forall_impl; [|exact Hall]. intros s [H0 _]. exact H0.
  - apply fold_Qplus_le; [apply Qle_refl|].
    eapply Forall_impl; [|exact Hall]. intros s [_ H1]. exact H1.
  - exact Hex.
Qed.

(* ================================================================== *)
(** ** Reading the trace of a completed [train_ch5] *)
(* ================================================================== *)

Lemma flat_map_flat_map (A B C : Type) (f : A -> list B) (g : B -> list C)
      (l : list A) :
  flat_map g (flat_map f l) = flat_map (fun a => flat_map g (f a)) l.
Proof.
  induction l as [|a l IH]; simpl; [reflexivity|].
  rewrite flat_map_app, IH. reflexivity.
Qed.

Lemma flat_map_ext_Forall (A B : Type) (f g : A -> list B) (l : list A) :
  Forall (fun a => f a = g a) l -> flat_map f l = flat_map g l.
Proof.
  induction 1 as [|a l Ha _ IH]; simpl; [reflexivity|].
  rewrite Ha, IH. reflexivity.
Qed.

Section TestDevice.

Variables (net : Block) (train_iter test_iter : DataIter)
          (num_epochs : nat) (lr : Q) (ctx : Context).

Lemma devices_of_epoch (loss : Loss) (trainer : Trainer)
      (animator : Animator) (ep : epoch_run) :
  epoch_ok shape net ep ->
  devices (epoch_events net train_iter test_iter ctx loss trainer animator ep)
  = flat_map (fun _ => [ctx; ctx]) (ep_steps ep)
    ++ flat_map (fun _ => [ep_dev ep; ep_dev ep]) (ep_eval ep).
Proof.
  intros Hok. unfold devices, epoch_events, train_events, test_events.
  rewrite !flat_map_app. cbn [flat_map ev_call returned app].
  rewrite !flat_map_flat_map.
  rewrite flat_map_ext_Forall
    with (g := fun _ : train_step => [ctx; ctx]).
  2: { apply Forall_forall. intros s _.
       unfold train_step_events, plot_events.
       destruct ((t_index s + 1) mod 50 =? 0)%nat; reflexivity. }
  rewrite app_nil_r. f_equal.
  pose proof (ok_device Hok) as Hdev. inversion Hdev; subst. reflexivity.
Qed.

Lemma list_ctx_of_epoch (loss : Loss) (trainer : Trainer)
      (animator : Animator) (ep : epoch_run) :
  epoch_ok shape net ep ->
  count is_list_ctx
        (epoch_events net train_iter test_iter ctx loss trainer animator ep)
  = 1%nat.
Proof.
  intros Hok. unfold epoch_events, train_events, test_events.
  change (?x :: ?l) with ([x] ++ l).
  rewrite !count_app, !count_flat_map.
  rewrite list_sum_const with (n := 0%nat).
  2: { apply Forall_forall. intros s _.
       unfold train_step_events, plot_events.
       destruct ((t_index s + 1) mod 50 =? 0)%nat; reflexivity. }
  rewrite list_sum_const with (n := 0%nat)
    by (apply Forall_forall; intros; reflexivity).
  pose proof (ok_device Hok) as Hdev. inversion Hdev; subst. reflexivity.
Qed.

(** X5. [train_ch5] calls [evaluate_accuracy_gpu(net, test_iter)] without
    its [ctx]: in every epoch of a completed run the device of the test
    batches is looked up anew, the first device of the network's first
    parameter, and the test batches are moved there, while the training
    batches are moved to [ctx].  The trace holds one [list_ctx] call per
    epoch. *)
Theorem test_batches_go_to_the_parameters_device
        (w w' : World) (u : unit) (t : list event) :
  run framework (train_ch5 shape net train_iter test_iter num_epochs lr ctx) w
  = (Ok u, w', t) ->
  exists loss params trainer animator t0 eps L A T tp,
    t = setup_events net num_epochs lr ctx loss params trainer animator t0
        ++ flat_map (epoch_events net train_iter test_iter ctx
                                  loss trainer animator) eps
        ++ summary_events ctx L A T tp /\
    List.length eps = num_epochs /\
    Forall (fun ep =>
              exists ps p ctxs,
                ep_lookup ep = [ returned (CollectParams net) ps;
                                 returned (ListCtx p) ctxs ] /\
                nth_error (map snd ps) 0 = Some p /\
                nth_error ctxs 0 = Some (ep_dev ep)) eps /\
    count is_list_ctx t = num_epochs /\
    devices t
    = flat_map (fun ep =>
                  flat_map (fun _ => [ctx; ctx]) (ep_steps ep)
                  ++ flat_map (fun _ => [ep_dev ep; ep_dev ep]) (ep_eval ep))
               eps.
Proof.
  intros H. apply train_ch5_inv in H.
  destruct H as (loss & params & trainer & animator & t0 & eps & L & A
                 & T & E & tp & His & Hoks & -> & _).
  exists loss, params, trainer, animator, t0, eps, L, A, T, tp.
  assert (Hlen : List.length eps = num_epochs).
  { rewrite <- (length_map ep_index), His. apply length_seq. }
  split; [reflexivity|]. split; [exact Hlen|]. split; [|split].
  - eapply Forall_impl; [|exact Hoks]. intros ep Hok.
    pose proof (ok_device Hok) as Hdev.
    inversion Hdev as [|ps p ctxs dev Hp Hc Ectx Edev Ehd].
    exists ps, p, ctxs. auto.
  - rewrite !count_app, count_flat_map.
    rewrite list_sum_const with (n := 1%nat).
    + rewrite Hlen. unfold setup_events, summary_events, count. simpl. lia.
    + eapply Forall_impl; [|exact Hoks]. intros ep Hok.
      apply list_ctx_of_epoch. exact Hok.
  - unfold devices. rewrite !flat_map_app, flat_map_flat_map.
    cbn [setup_events summary_events flat_map ev_call returned app].
    rewrite app_nil_r. apply flat_map_ext_Forall.
    eapply Forall_impl; [|exact Hoks]. intros ep Hok.
    apply (devices_of_epoch loss trainer animator Hok).
Qed.

End TestDevice.




Section TraceReadings.

Variables (net : Block) (train_iter test_iter : DataIter)
          (num_epochs : nat) (lr : Q) (ctx : Context).
Variables (loss : Loss) (trainer : Trainer) (animator : Animator).








End TraceReadings.


Lemma plotted_app (a b : list event) :
  plotted (a ++ b) = plotted a ++ plotted b.
Proof. unfold plotted. apply flat_map_app. Qed.


Section Curves.

Variables (net : Block) (train_iter test_iter : DataIter)
          (num_epochs : nat) (lr : Q) (ctx : Context).




(** X9. The test accuracy in the summary of a completed [train_ch5] is
    that of the last epoch's evaluation: the correct predictions over the
    examples of the last pass over the test loader.  It is the value
    plotted last, the point of the test curve at [num_epochs]. *)
Theorem summary_test_accuracy_is_the_last
        (w w' : World) (u : unit) (t : list event) :
  run framework (train_ch5 shape net train_iter test_iter num_epochs lr ctx) w
  = (Ok u, w', t) ->
  exists loss params trainer animator t0 before last L A T tp,
    t = setup_events net num_epochs lr ctx loss params trainer animator t0
        ++ flat_map (epoch_events net train_iter test_iter ctx
                                  loss trainer animator) (before ++ [last])
        ++ summary_events ctx L A T tp /\
    printed t
    = [ Format "loss %.3f, train acc %.3f, test acc %.3f"
               [PFloat L; PFloat A; PFloat T];
        Format "%.1f exampes/sec on %s" [PFloat tp; PCtx ctx] ] /\
    T = sum_floats (map e_correct (ep_eval last))
        / sum_floats (map (e_examples shape) (ep_eval last)) /\
    List.last (plotted t) (0, [])
    = (of_nat num_epochs, [None; None; Some T]).
Proof.
  intros H. apply train_ch5_inv in H.
  destruct H as (loss & params & trainer & animator & t0 & eps & L & A
                 & T & E & tp & His & Hoks & -> & _ & _ & HT & _).
  assert (Hne : eps <> []) by (intros ->; discriminate).
  destruct (exists_last Hne) as (before & x & ->).
  rewrite last_of_app in HT. injection HT as <-.
  exists loss, params, trainer, animator, t0, before, x, L, A,
    (ep_test_acc x), tp.
  split; [reflexivity|]. split; [|split].
  - rewrite !printed_app, printed_epochs by exact Hoks. reflexivity.
  - apply Forall_app in Hoks. destruct Hoks as [_ Hx].
    apply Forall_inv in Hx. exact (ok_test_acc Hx).
  - assert (Hi : (ep_index x + 1 = num_epochs)%nat).
    { pose proof (f_equal (@List.length nat) His) as Hlen.
      rewrite length_map, length_app, length_seq in Hlen.
      cbn [List.length] in Hlen.
      rewrite <- Hlen, Nat.add_1_r, seq_S, map_app in His. cbn [map] in His.
      apply app_inj_tail in His. destruct His as [_ ->]. lia. }
    rewrite flat_map_app. cbn [flat_map]. rewrite app_nil_r.
    unfold epoch_events at 2. unfold test_events.
    rewrite !app_assoc. rewrite plotted_app.
    change (plotted (summary_events ctx L A (ep_test_acc x) tp))
      with (@nil (Q * list (option Q))).
    rewrite app_nil_r, plotted_app.
    change (plotted [returned (AnimatorAdd animator (of_nat (ep_index x + 1))
                                 [None; None; Some (ep_test_acc x)]) tt])
      with [(of_nat (ep_index x + 1), [None; None; Some (ep_test_acc x)])].
    rewrite last_last, Hi. reflexivity.
Qed.

End Curves.

(* ================================================================== *)
(** ** The batches of an epoch *)
(* ================================================================== *)

Lemma step_sizes_no_step (t : list event) :
  count is_step t = 0%nat -> step_sizes t = [].
Proof.
  unfold count, step_sizes. induction t as [|[T c resp] t IH]; [reflexivity|].
  destruct c; cbn; try exact IH; discriminate.
Qed.

Section Batches.

Variables (net : Block) (train_iter test_iter : DataIter) (ctx : Context).
Variables (loss : Loss) (trainer : Trainer) (animator : Animator).

(** A batch that completed: as [train_batch_inv], with the rates it
    left in [train_loss] and [train_acc]. *)
Lemma train_batch_rates (epoch i : nat) (b : NDArray * NDArray)
      (st st' : locals) (m : Accumulator) (a0 b0 c0 : Q) (w w' : World)
      (t : list event) :
  run framework
      (train_batch shape net train_iter ctx loss trainer animator epoch st i b)
       w
  = (Ok st', w', t) ->
  metric st = Some m -> data m = [a0; b0; c0] ->
  exists s,
    t_index s = i /\ t_batch s = b /\
    t = train_step_events net train_iter ctx loss trainer animator epoch s /\
    metric st' = Some (t_add m s) /\
    data (t_add m s) = [a0 + t_l_sum s; b0 + t_acc s; c0 + t_examples s] /\
    Qeq_bool (c0 + t_examples s) 0 = false /\
    t_loss_rate s = (a0 + t_l_sum s) / (c0 + t_examples s) /\
    t_acc_rate s = (b0 + t_acc s) / (c0 + t_examples s) /\
    train_loss st' = Some (t_loss_rate s) /\
    train_acc st' = Some (t_acc_rate s).
Proof.
  destruct b as [X y]. unfold train_batch, timer_start, timer_stop, getitem.
  intros H Hmet Hm. rewrite Hmet in H.
  peel H as tm Htm. peel Htm as start Hstart. done_run Htm.
  peel H as X' HX. peel H as y' Hy. peel H as y_hat Hf.
  peel H as l Hl. peel H as u1 Hb. peel H as n Hn. peel H as u2 Hs.
  peel H as m0 Hm0. injection Hm0 as <-.
  peel H as l_sum Hls. peel H as acc Hacc. peel H as n' Hn'.
  assert (n' = n) as -> by congruence.
  peel H as tm Htm. peel Htm as stop Hstop. done_run Htm.
  simpl times in H. simpl start_time in H.
  assert (Hdata : data (add m [l_sum; acc; of_nat n])
                  = [a0 + l_sum; b0 + acc; c0 + of_nat n]).
  { unfold add. cbn [data]. rewrite Hm. reflexivity. }
  peel H as a Ha. peel H as c Hc. peel H as lrate Hlr.
  peel H as b Hb'. peel H as c' Hc'. peel H as arate Har.
  rewrite Hdata in Ha, Hc, Hb', Hc'. cbn [nth_error] in Ha, Hc, Hb', Hc'.
  injection Ha as <-. injection Hc as <-. injection Hb' as <-.
  injection Hc' as <-.
  destruct u1, u2.
  destruct ((i + 1) mod 50 =? 0)%nat eqn:Ei.
  - peel H as u3 Hp. peel Hp as len Hlen. peel Hp as frac Hfrac.
    apply run_call_Ok_inv in Hp. destruct Hp as [Hp ->]. destruct u3.
    done_run H.
    exists {| t_index := i; t_X := X; t_y := y; t_X_dev := X';
              t_y_dev := y'; t_y_hat := y_hat; t_l := l; t_n := n;
              t_l_sum := l_sum; t_acc := acc; t_start := start; t_stop := stop;
              t_loss_rate := (a0 + l_sum) / (c0 + of_nat n);
              t_acc_rate := (b0 + acc) / (c0 + of_nat n);
              t_len := len |}.
    unfold train_step_events, plot_events, t_add, t_examples, t_batch.
    cbn [t_index t_X t_y t_X_dev t_y_dev t_y_hat t_l t_n t_l_sum t_acc
         t_start t_stop t_loss_rate t_acc_rate t_len app].
    rewrite Ei. repeat split; auto.
  - peel H as u3 Hp. done_run H.
    exists {| t_index := i; t_X := X; t_y := y; t_X_dev := X';
              t_y_dev := y'; t_y_hat := y_hat; t_l := l; t_n := n;
              t_l_sum := l_sum; t_acc := acc; t_start := start; t_stop := stop;
              t_loss_rate := (a0 + l_sum) / (c0 + of_nat n);
              t_acc_rate := (b0 + acc) / (c0 + of_nat n);
              t_len := 0 |}.
    unfold train_step_events, plot_events, t_add, t_examples, t_batch.
    cbn [t_index t_X t_y t_X_dev t_y_dev t_y_hat t_l t_n t_l_sum t_acc
         t_start t_stop t_loss_rate t_acc_rate t_len app].
    rewrite Ei. repeat split; auto.
Qed.

Lemma train_loop_rates (epoch : nat) (bs : list (NDArray * NDArray))
      (i : nat) (st st' : locals) (m : Accumulator) (a0 b0 c0 : Q)
      (w w' : World) (t : list event) :
  run framework
      (for_enumerate i bs (train_batch shape net train_iter ctx loss trainer
       animator epoch) st) w
  = (Ok st', w', t) ->
  metric st = Some m -> data m = [a0; b0; c0] ->
  exists steps,
    map t_index steps = seq i (List.length bs) /\
    map t_batch steps = bs /\
    t = flat_map (train_step_events net train_iter ctx loss trainer animator
                                    epoch) steps /\
    train_loss st'
    = fold_left (fun _ s => Some (t_loss_rate s)) steps (train_loss st) /\
    train_acc st'
    = fold_left (fun _ s => Some (t_acc_rate s)) steps (train_acc st) /\
    forall k s,
      nth_error steps k = Some s ->
      Qeq_bool (fold_left Qplus (map t_examples (firstn (S k) steps)) c0) 0
      = false /\
      t_loss_rate s
      = fold_left Qplus (map t_l_sum (firstn (S k) steps)) a0
        / fold_left Qplus (map t_examples (firstn (S k) steps)) c0 /\
      t_acc_rate s
      = fold_left Qplus (map t_acc (firstn (S k) steps)) b0
        / fold_left Qplus (map t_examples (firstn (S k) steps)) c0.
Proof.
  revert i st m a0 b0 c0 w t.
  induction bs as [|b bs IH]; intros i st m a0 b0 c0 w t H Hmet Hm;
    simpl for_enumerate in H.
  - done_run H. exists [].
    do 5 (split; [reflexivity|]). intros [|k] s Hk; discriminate Hk.
  - peel H as st1 Hb.
    eapply train_batch_rates in Hb; [|exact Hmet|exact Hm].
    destruct Hb as (s & Hi & Hbatch & -> & Hmet1 & Hdata & Hnz & Hlr & Har
                    & Hl1 & Ha1).
    eapply IH in H; [|exact Hmet1|exact Hdata].
    destruct H as (steps & His & Hbs & -> & Hl' & Ha' & Hrates).
    exists (s :: steps). cbn [map List.length seq flat_map fold_left].
    rewrite Hi, His, Hbatch, Hbs, Hl', Ha', Hl1, Ha1.
    do 5 (split; [reflexivity|]).
    intros [|k] s' Hk; cbn [nth_error] in Hk; cbn [firstn map fold_left].
    + injection Hk as <-. auto.
    + exact (Hrates k s' Hk).
Qed.

(** A run of a program that starts with a call: the call failed, or it
    returned and the rest ran. *)
Lemma run_Do_inv (A T : Type) (c : call T) (k : T -> prog A)
      (w w' : World) (r : outcome A) (t : list event) :
  run framework (Do c k) w = (r, w', t) ->
  (exists e, r = Err (Framework e) /\ t = [raised c e]) \/
  (exists v w1 t1,
      run framework (k v) w1 = (r, w', t1) /\ t = returned c v :: t1).
Proof.
  simpl. destruct (framework c w) as [[e|v] w1].
  - intros [= <- <- <-]. left. eauto.
  - destruct (run framework (k v) w1) as [[r1 w2] t1] eqn:E.
    intros [= <- <- <-]. right. eauto 6.
Qed.

(** A program that does not return ends each of its runs in a call that
    failed or in one of its own errors. *)
Lemma raises_run (Q : pyerr -> Prop) (A : Type) (m : prog A)
      (w w' : World) (r : outcome A) (t : list event) :
  raises Q m -> run framework m w = (r, w', t) ->
  (exists e, r = Err (Framework e)) \/ (exists e, Q e /\ r = Err (Python e)).
Proof.
  intros H. revert w t. induction H as [e He|T c k Hk IH]; intros w t.
  - simpl. intros [= <- <- <-]. right. eauto.
  - intros Hrun. apply run_Do_inv in Hrun.
    destruct Hrun as [(e & -> & _)|(v & w1 & t1 & Hrun & _)]; [eauto|].
    eapply IH. exact Hrun.
Qed.

(** The first batch of an epoch, when the optimizer step is given 0. *)
Lemma train_batch_zero (epoch i : nat) (b : NDArray * NDArray)
      (st : locals) (w w' : World) (r : outcome locals) (t : list event) :
  run framework
      (train_batch shape net train_iter ctx loss trainer animator epoch st i b)
       w
  = (r, w', t) ->
  metric st = Some (Accumulator_new 3) ->
  hd_error (step_sizes t) = Some 0%nat ->
  (exists e, r = Err (Framework e)) \/ r = Err (Python ZeroDivisionError).
Proof.
  destruct b as [X y]. unfold train_batch, timer_start, timer_stop.
  intros H Hmet Hz. rewrite Hmet in H. cbn [bind do_call read] in H.
  do 6 (apply run_Do_inv in H;
        destruct H as [(e & -> & ->)|(? & ? & ? & H & ->)];
        [discriminate Hz|];
        unfold step_sizes in Hz;
        cbn [flat_map ev_call returned app] in Hz).
  unfold index at 1 in H.
  match type of H with
  | context [nth_error (shape ?a) 0] =>
      destruct (nth_error (shape a) 0) as [n|] eqn:En; cbn [bind] in H
  end.
  2: { simpl in H. injection H as <- <- <-. discriminate Hz. }
  apply run_Do_inv in H.
  destruct H as [(e & -> & ->)|(u & w1 & t1 & H & ->)]; [eauto|].
  cbn [flat_map ev_call returned app hd_error] in Hz. injection Hz as ->.
  eapply raises_run with (Q := eq ZeroDivisionError) in H.
  - destruct H as [H|(e & <- & H)]; auto.
  - apply raises_Do. intros l_sum. apply raises_Do. intros acc.
    unfold index. rewrite En. cbn [bind]. apply raises_Do. intros stop.
    unfold getitem, index, add, truediv.
    cbn [data Accumulator_new repeat combine map nth_error fst snd bind].
    change (Qeq_bool (0 + of_nat 0) 0) with true. cbn [bind].
    apply raises_Raise. reflexivity.
Qed.

(** X10. An epoch whose first optimizer step is given a batch size of 0
    does not complete.  The step itself may fail in the framework, as
    Gluon's does; if it returns, and the calls after it return, the
    division that follows, of the loss by the number of examples so far,
    which is 0, raises [ZeroDivisionError].  So in an epoch that completes
    the first optimizer step is given at least one example. *)
Theorem first_batch_has_an_example :
  (forall st epoch w r w' t,
      run framework
          (train_epoch shape net train_iter test_iter ctx loss trainer animator
                       st epoch) w = (r, w', t) ->
      hd_error (step_sizes t) = Some 0%nat ->
      (exists e, r = Err (Framework e)) \/
      r = Err (Python ZeroDivisionError)) /\
  (forall st st' epoch w w' t,
      run framework
          (train_epoch shape net train_iter test_iter ctx loss trainer animator
                       st epoch) w = (Ok st', w', t) ->
      match step_sizes t with
      | [] => True
      | n :: _ => (0 < n)%nat
      end).
Proof.
  assert (Hzero : forall st epoch w r w' t,
             run framework
                 (train_epoch shape net train_iter test_iter ctx loss trainer
                              animator st epoch) w = (r, w', t) ->
             hd_error (step_sizes t) = Some 0%nat ->
             (exists e, r = Err (Framework e)) \/
             r = Err (Python ZeroDivisionError)).
  { intros st epoch w r w' t H Hz. unfold train_epoch in H.
    cbn [bind do_call] in H. apply run_Do_inv in H.
    destruct H as [(e & -> & ->)|(bs & w1 & t1 & H & ->)]; [eauto|].
    unfold step_sizes in Hz. cbn [flat_map ev_call returned app] in Hz.
    fold (step_sizes t1) in Hz.
    destruct bs as [|b bs]; cbn [for_enumerate bind] in H.
    - assert (Hnone : count is_step t1 = 0%nat).
      { trace_of_run H. apply always_count. calls. }
      rewrite (step_sizes_no_step _ Hnone) in Hz. discriminate Hz.
    - rewrite !run_bind in H.
      destruct (run framework
                    (train_batch shape net train_iter ctx loss trainer
                                 animator epoch
                                 {| metric := Some (Accumulator_new 3);
                                    timer := timer st;
                                    train_loss := train_loss st;
                                    train_acc := train_acc st;
                                    test_acc := test_acc st |} 0 b) w1)
        as [[r1 w2] tb] eqn:Eb.
      assert (Hb : hd_error (step_sizes tb) = Some 0%nat ->
                   (exists e, r1 = Err (Framework e)) \/
                   r1 = Err (Python ZeroDivisionError)).
      { intros Hzb. eapply train_batch_zero; [exact Eb|reflexivity|exact Hzb]. }
      destruct r1 as [st1|e1].
      + eapply train_batch_rates
          with (m := Accumulator_new 3) (a0 := 0) (b0 := 0) (c0 := 0) in Eb;
          [|reflexivity|reflexivity].
        destruct Eb as (s & _ & _ & -> & _ & _ & Hnz & _).
        exfalso.
        destruct (run framework _ w2) as [[[st2|e2] w3] t3] in H.
        * destruct (run framework _ w3) as [[r4 w4] t4] in H.
          injection H as <- <- <-.
          unfold train_step_events, step_sizes in Hz.
          cbn [flat_map ev_call returned app hd_error] in Hz.
          injection Hz as Hn. unfold t_examples in Hnz. rewrite Hn in Hnz.
          vm_compute in Hnz. discriminate Hnz.
        * injection H as <- <- <-.
          unfold train_step_events, step_sizes in Hz.
          cbn [flat_map ev_call returned app hd_error] in Hz.
          injection Hz as Hn. unfold t_examples in Hnz. rewrite Hn in Hnz.
          vm_compute in Hnz. discriminate Hnz.
      + injection H as <- <- <-. apply Hb. exact Hz. }
  split; [exact Hzero|].
  intros st st' epoch w w' t H.
  destruct (step_sizes t) as [|[|n] l] eqn:Es; [exact I| |lia].
  destruct (Hzero _ _ _ _ _ _ H) as [(e & He)|He];
    [rewrite Es; reflexivity|discriminate He|discriminate He].
Qed.

(** X11. Within an epoch, [train_loss] and [train_acc] are running
    averages: after each batch of a completed epoch they are the sum of
    the losses, and of the correct predictions, of the epoch's batches so
    far, divided by the number of examples of those batches.  These are
    the values the fiftieth, hundredth, ... batch plots, and what the last
    batch leaves is what the epoch leaves. *)
Theorem rates_are_running_averages
        (st st' : locals) (epoch : nat) (w w' : World) (t : list event) :
  run framework
      (train_epoch shape net train_iter test_iter ctx loss trainer animator st
       epoch) w = (Ok st', w', t) ->
  exists steps rest,
    t = returned (Iter train_iter) (map t_batch steps)
        :: flat_map (train_step_events net train_iter ctx loss trainer
                                       animator epoch) steps
        ++ rest /\
    count is_train_record rest = 0%nat /\
    train_loss st'
    = fold_left (fun _ s => Some (t_loss_rate s)) steps (train_loss st) /\
    train_acc st'
    = fold_left (fun _ s => Some (t_acc_rate s)) steps (train_acc st) /\
    forall k s,
      nth_error steps k = Some s ->
      Qeq_bool (sum_floats (map t_examples (firstn (S k) steps))) 0 = false /\
      t_loss_rate s
      = sum_floats (map t_l_sum (firstn (S k) steps))
        / sum_floats (map t_examples (firstn (S k) steps)) /\
      t_acc_rate s
      = sum_floats (map t_acc (firstn (S k) steps))
        / sum_floats (map t_examples (firstn (S k) steps)).
Proof.
  unfold train_epoch. intros H.
  peel H as bs Hbs. peel H as st1 Hloop.
  eapply train_loop_rates
    with (m := Accumulator_new 3) (a0 := 0) (b0 := 0) (c0 := 0) in Hloop;
    [|reflexivity|reflexivity].
  destruct Hloop as (steps & _ & <- & -> & Hl & Ha & Hrates).
  cbn [train_loss train_acc] in Hl, Ha.
  assert (Hrest : count is_train_record t0 = 0%nat).
  { trace_of_run H. apply always_count. calls. }
  peel H as acc Hev. peel H as u Hadd. done_run H.
  cbn [train_loss train_acc].
  exists steps. eexists. split; [reflexivity|]. split; [exact Hrest|].
  split; [exact Hl|]. split; [exact Ha|]. exact Hrates.
Qed.

End Batches.

(* ================================================================== *)
(** ** The notebook, from its first cell to its last *)
(* ================================================================== *)

Lemma shape_inspection_inv (net0 : Block) (X : NDArray) (w w' : World)
      (t : list event) :
  run framework (shape_inspection shape net0) w = (Ok X, w', t) ->
  exists X0 steps,
    map s_layer steps = layers net0 /\ chained X0 steps X /\
    t = [ returned (RandomUniform [1; 1; 28; 28]%nat) X0;
          returned (Initialize net0 false None None) tt ]
        ++ flat_map (layer_step_events shape) steps.
Proof.
  unfold shape_inspection. intros H.
  peel H as X0 HX. peel H as u Hinit. destruct u.
  apply shape_loop_inv in H. destruct H as (steps & Hl & Hc & ->).
  exists X0, steps. auto.
Qed.

Lemma initializations_app (a b : list event) :
  initializations (a ++ b) = initializations a ++ initializations b.
Proof. unfold initializations. apply flat_map_app. Qed.

Lemma initializations_none (t : list event) :
  count is_initialize t = 0%nat -> initializations t = [].
Proof.
  unfold count, initializations.
  induction t as [|[T c resp] t IH]; [reflexivity|].
  destruct c; cbn; try exact IH; discriminate.
Qed.

Lemma initialize_of_epochs (net0 : Block) (train_iter test_iter : DataIter)
      (ctx : Context) (loss : Loss) (trainer : Trainer) (animator : Animator)
      (eps : list epoch_run) :
  Forall (epoch_ok shape net0) eps ->
  count is_initialize
        (flat_map (epoch_events net0 train_iter test_iter ctx
                                loss trainer animator) eps)
  = 0%nat.
Proof.
  induction 1 as [|ep eps Hok _ IH]; [reflexivity|].
  cbn [flat_map]. rewrite count_app, IH.
  unfold epoch_events, train_events, test_events.
  change (?x :: ?l) with ([x] ++ l).
  rewrite !count_app, !count_flat_map.
  rewrite list_sum_const with (n := 0%nat) (l := ep_steps ep).
  2: { apply Forall_forall. intros s _.
       unfold train_step_events, plot_events.
       destruct ((t_index s + 1) mod 50 =? 0)%nat; reflexivity. }
  rewrite list_sum_const with (n := 0%nat)
    by (apply Forall_forall; intros; reflexivity).
  pose proof (ok_device Hok) as Hdev. inversion Hdev; subst. reflexivity.
Qed.

(** X12. The notebook run from its first cell to its last, when it
    completes.  The cells compose as follows: [npx.set_np()]; the shape
    inspection; the loading of the data with a batch size of 256; the
    evaluation of [d2l.try_gpu()], the default of [ctx]; and a completed
    [train_ch5] of [net] on the two loaders that the loading returned, for
    10 epochs at learning rate 0.9, on the device that [d2l.try_gpu()]
    returned.  The network is initialized twice, by the plain
    [net.initialize()] of the shape inspection and then, forced, with
    Xavier on that device.  The notebook's own [print] statements are
    executed nine times, for the shapes after each of the seven layers and
    then for the two lines of the summary (what a library prints itself, as
    when it downloads the data, is no call of the notebook); and the ten
    epochs each recorded a test accuracy. *)
Theorem notebook_top_to_bottom
        (w w' : World) (u : unit) (t : list event) :
  run framework (notebook shape) w = (Ok u, w', t) ->
  exists X0 steps train_iter test_iter try_gpu w1 w2 t_train,
    map s_layer steps = layers net /\
    run framework
        (train_ch5 shape net train_iter test_iter 10 (9 # 10) try_gpu) w1
    = (Ok tt, w2, t_train) /\
    t = [ returned SetNp tt;
          returned (RandomUniform [1; 1; 28; 28]%nat) X0;
          returned (Initialize net false None None) tt ]
        ++ flat_map (layer_step_events shape) steps
        ++ [ returned (LoadDataFashionMnist 256) (train_iter, test_iter);
             returned TryGpu try_gpu ]
        ++ t_train /\
    initializations t
    = [(false, None, None); (true, Some try_gpu, Some Xavier)] /\
    (exists L A T tp,
        printed t
        = map (layer_print shape) steps
          ++ [ Format "loss %.3f, train acc %.3f, test acc %.3f"
                      [PFloat L; PFloat A; PFloat T];
               Format "%.1f exampes/sec on %s" [PFloat tp; PCtx try_gpu] ]) /\
    List.length (printed t) = 9%nat /\
    count is_test_record t = 10%nat.
Proof.
  unfold notebook. intros H. peel H as u0 Hnp. destruct u0.
  peel H as X Hs. cbv zeta in H.
  peel H as loaders Hload. destruct loaders as [train_iter test_iter].
  peel H as try_gpu Hgpu. destruct u.
  apply shape_inspection_inv in Hs.
  destruct Hs as (X0 & steps & Hl & _ & ->).
  pose proof H as Hrun. apply train_ch5_inv in H.
  destruct H as (loss & params & trainer & animator & t0 & eps & L & A
                 & T & E & tp & His & Hoks & Ht & _).
  assert (Hlen : List.length eps = 10%nat).
  { rewrite <- (length_map ep_index), His. apply length_seq. }
  exists X0, steps, train_iter, test_iter, try_gpu.
  do 3 eexists. split; [exact Hl|]. split; [exact Hrun|].
  split; [reflexivity|].
  rewrite Ht.
  assert (Hprinted :
            printed
              ([returned SetNp tt]
               ++ ([ returned (RandomUniform [1; 1; 28; 28]%nat) X0;
                     returned (Initialize net false None None) tt ]
                   ++ flat_map (layer_step_events shape) steps)
               ++ [returned (LoadDataFashionMnist 256)
                            (train_iter, test_iter)]
               ++ [returned TryGpu try_gpu]
               ++ setup_events net 10 (9 # 10) try_gpu loss params trainer
                               animator t0
               ++ flat_map (epoch_events net train_iter test_iter try_gpu
                                         loss trainer animator) eps
               ++ summary_events try_gpu L A T tp)
            = map (layer_print shape) steps
              ++ [ Format "loss %.3f, train acc %.3f, test acc %.3f"
                          [PFloat L; PFloat A; PFloat T];
                   Format "%.1f exampes/sec on %s"
                          [PFloat tp; PCtx try_gpu] ]).
  { rewrite !printed_app, printed_layer_steps, printed_epochs by exact Hoks.
    reflexivity. }
  split; [|split; [|split]].
  - rewrite !initializations_app.
    rewrite (initializations_none
               (flat_map (layer_step_events shape) steps)).
    2: { rewrite count_flat_map, list_sum_const with (n := 0%nat);
           [reflexivity|].
         apply Forall_forall. intros; reflexivity. }
    rewrite (initializations_none
               (flat_map (epoch_events net train_iter test_iter try_gpu
                                       loss trainer animator) eps))
      by (apply initialize_of_epochs; exact Hoks).
    reflexivity.
  - exists L, A, T, tp. exact Hprinted.
  - rewrite Hprinted, length_app, length_map.
    rewrite <- (length_map s_layer), Hl. reflexivity.
  - rewrite !count_app.
    rewrite (records_in_epochs train_iter test_iter try_gpu loss trainer
                               animator Hoks), Hlen.
    rewrite count_flat_map, list_sum_const with (n := 0%nat).
    + reflexivity.
    + apply Forall_forall. intros; reflexivity.
Qed.

End NotebookFacts.

(* ================================================================== *)
(** ** The properties at work on concrete runs *)
(* ================================================================== *)

Section DemoFacts.

Import Toy.

(** Witness of C2: the evaluation of two test batches. *)
Lemma evaluate_accuracy_gpu_fraction_witness :
  eval_demo = (Ok (3 # 6), snd (fst eval_demo), trace_of eval_demo) /\
  exists steps : list (@eval_step NDArray),
    3 # 6 = sum_floats (map (@e_correct _) steps)
            / sum_floats (map (e_examples shape) steps).
Proof.
  split; [vm_compute; reflexivity|].
  destruct (evaluate_accuracy_gpu_fraction
              shape framework net test_data None (world [] [[4; 2]]%nat)
              (w' := snd (fst eval_demo)) (r := 3 # 6)
              (t := trace_of eval_demo))
    as (dev & hd & steps & _ & _ & Hr).
  - vm_compute. reflexivity.
  - exists steps. exact Hr.
Defined.

(** Witness of C8: an evaluation that returns gave [d2l.accuracy] labels
    of 4 and of 2 examples; one over nothing divides by zero; one of a
    network without parameters indexes an empty list. *)
Lemma evaluate_accuracy_gpu_preconditions_witness :
  (map snd (accuracy_results shape (trace_of eval_demo)) = [4; 2]%nat /\
   (0 < list_sum (map snd (accuracy_results shape (trace_of eval_demo))))%nat)
  /\
  outcome_of eval_nothing = Err (Python ZeroDivisionError) /\
  outcome_of eval_no_params = Err (Python IndexError).
Proof.
  split; [|split].
  - split; [vm_compute; reflexivity|].
    refine (proj1 (proj1 (evaluate_accuracy_gpu_preconditions shape framework
                            net test_data None (world [] [[4; 2]]%nat))
                         (3 # 6) (snd (fst eval_demo)) (trace_of eval_demo)
                         _)).
    vm_compute. reflexivity.
  - pose proof
      (proj1 (proj2 (evaluate_accuracy_gpu_preconditions shape framework
          net test_data None (world [] [[]])))
             (gpu 0) (world [] [[]]) (trace_of lookup_demo)
             (world [] [])) as H.
    refine (f_equal (fun r => fst (fst r)) (H _ _));
      vm_compute; reflexivity.
  - pose proof
      (proj2 (proj2 (evaluate_accuracy_gpu_preconditions shape framework
          net test_data None
                       (without_params (world [] [[4; 2]]%nat))))
             (without_params (world [] [[4; 2]]%nat)) eq_refl) as H.
    refine (f_equal (fun r => fst (fst r)) (H _)); vm_compute; reflexivity.
Defined.

(** Witness of C7: the framework fails while the second training batch is
    in the network; [train_ch5] raises that error, and the failing call is
    its last. *)
Lemma errors_propagate_unchanged_witness :
  outcome_of train_failing = Err (Framework "MXNetError") /\
  exists pre ev,
    trace_of train_failing = pre ++ [ev] /\ failure ev = Some "MXNetError".
Proof.
  split; [vm_compute; reflexivity|].
  eapply (proj2 (proj2 (errors_propagate_unchanged shape framework net test_data
      train_data test_data None 2
                   (9 # 10) (gpu 0)
                   (failing 20 (world [[4; 2]; [3]]%nat [[4]; [4]]%nat)))
                (Err (Framework "MXNetError")) (snd (fst train_failing))
                (trace_of train_failing) _)).
  reflexivity.
  Unshelve. vm_compute. reflexivity.
Defined.

(** Witness of C3: three batches, three optimizer steps, of the batches'
    sizes. *)
Lemma train_ch5_sgd_steps_witness :
  train_demo = (Ok tt, snd (fst train_demo), trace_of train_demo) /\
  step_sizes (trace_of train_demo) = [4; 2; 3]%nat /\
  exists eps : list toy_epoch,
    List.length eps = 2%nat /\
    count is_step (trace_of train_demo)
    = list_sum (map (fun ep => List.length (ep_steps ep)) eps).
Proof.
  split; [vm_compute; reflexivity|]. split; [vm_compute; reflexivity|].
  destruct (proj2 (train_ch5_sgd_steps shape framework net train_data
                     test_data 2 (9 # 10) (gpu 0)
                     (world [[4; 2]; [3]]%nat [[4]; [4]]%nat))
                  tt (snd (fst train_demo)) (trace_of train_demo))
    as (loss & ps & trainer & animator & t0 & eps & rest & _ & Hlen & _ & Hc).
  - vm_compute. reflexivity.
  - exists eps. split; [exact Hlen | exact Hc].
Defined.


(** Witness of C5: an epoch that finds an accumulator holding 7, 7, 7
    leaves the sums of its own two batches. *)
Lemma accumulator_per_epoch_witness :
  epoch_demo = (Ok (toy_locals_of stale epoch_demo),
                snd (fst epoch_demo), trace_of epoch_demo) /\
  option_map data (metric (toy_locals_of stale epoch_demo))
  = Some [0 + (4 # 1) * (1 # 4) + (2 # 1) * (1 # 4);
          0 + (2 # 1) + (1 # 1); 0 + (4 # 1) + (2 # 1)] /\
  exists ep : toy_epoch,
    option_map data (metric (toy_locals_of stale epoch_demo))
    = Some [ep_loss_sum ep; ep_acc_sum ep; ep_examples ep].
Proof.
  split; [vm_compute; reflexivity|]. split; [vm_compute; reflexivity|].
  destruct (proj2 (accumulator_per_epoch shape framework net train_data
                     test_data (gpu 0) tt tt tt)
                  0%nat stale (toy_locals_of stale epoch_demo)
                  (world [[4; 2]]%nat [[4]]%nat) (snd (fst epoch_demo))
                  (trace_of epoch_demo))
    as (ep & _ & _ & Hm & _).
  - vm_compute. reflexivity.
  - exists ep. exact Hm.
Defined.

(** Witness of C6: the dummy forward pass through [net] prints seven
    lines. *)
Lemma printed_output_witness :
  shape_demo = (Ok [1; 10]%nat, snd (fst shape_demo),
                trace_of shape_demo) /\
  List.length (printed (trace_of shape_demo)) = 7%nat.
Proof.
  split; [vm_compute; reflexivity|].
  refine (proj1 (proj2 (printed_output shape framework))
                (world [] []) [1; 10]%nat (snd (fst shape_demo))
                (trace_of shape_demo) _).
  vm_compute. reflexivity.
Defined.

(** Witness of C9: a completed run saw a training batch; after a loop
    over nothing, the summary raises at [train_loss]; and [train_ch5]
    over a training iterator that never yields a batch does not
    complete. *)
Lemma train_ch5_needs_a_batch_witness :
  (exists b bs,
      In (returned (Iter train_data) (b :: bs))
         (trace_of train_demo)) /\
  (train_summary 2 (gpu 0) (toy_locals_of unassigned loop_nothing)
   : toy_prog unit)
  = Raise (UnboundLocalError "train_loss") /\
  (forall u, outcome_of train_nothing <> Ok u).
Proof.
  split; [|split].
  - refine (proj1 (train_ch5_needs_a_batch shape framework net train_data
                     test_data 2 (9 # 10) (gpu 0))
                  (world [[4; 2]; [3]]%nat [[4]; [4]]%nat) tt
                  (snd (fst train_demo)) (trace_of train_demo) _).
    vm_compute. reflexivity.
  - refine (proj1 (proj1 (proj2 (train_ch5_needs_a_batch shape framework net
                                   train_data test_data 2 (9 # 10) (gpu 0)))
                         tt tt tt unassigned
                         (toy_locals_of unassigned loop_nothing) 2%nat
                         (world [[]; []] [[4]; [4]]%nat)
                         (snd (fst loop_nothing)) (trace_of loop_nothing)
                         is_train eq_refl eq_refl eq_refl _ eq_refl _)).
    + vm_compute. reflexivity.
    + vm_compute. repeat constructor.
  - refine (proj2 (proj2 (train_ch5_needs_a_batch shape framework net
                            train_data test_data 2 (9 # 10) (gpu 0)))
                  (world [[]; []] [[4]; [4]]%nat)
                  (outcome_of train_nothing) (snd (fst train_nothing))
                  (trace_of train_nothing) is_train _ eq_refl _).
    + vm_compute. reflexivity.
    + vm_compute. repeat constructor.
Defined.

(** Witness of C10: three epochs of 1, 3 and 2 examples. *)
Lemma final_summary_values_witness :
  train_uneven = (Ok tt, snd (fst train_uneven),
                  trace_of train_uneven) /\
  exists (eps before : list toy_epoch) (last : toy_epoch),
    eps = before ++ [last] /\ List.length eps = 3%nat /\
    (ep_examples last * of_nat 3 / sum_floats (all_times eps)
     == overall_rate eps <->
     ep_examples last * of_nat 3 == sum_floats (map
         (fun ep => ep_examples ep) eps)).
Proof.
  split; [vm_compute; reflexivity|].
  destruct (final_summary_values shape framework net train_data test_data
              3 (9 # 10) (gpu 0)
              (world [[1]; [2; 1]; [2]]%nat [[4]; [4]; [4]]%nat)
              (w' := snd (fst train_uneven)) (u := tt)
              (t := trace_of train_uneven))
    as (loss & ps & trainer & animator & t0 & eps & L & A & T & tp
        & _ & Hlen & _ & before & last & Heps & Htp & Hiff & _).
  - vm_compute. reflexivity.
  - exists eps, before, last. split; [exact Heps|].
    split; [exact Hlen | rewrite <- Htp; exact Hiff].
Defined.

(** The training curves get a point at the fiftieth batch, at
    [epoch + 49/50], and the test curve one at the end of the epoch. *)
Example train_ch5_plots_at_fifty :
  outcome_of train_fifty = Ok tt /\
  map fst (plotted (trace_of train_fifty))
  = [of_nat 0 + of_nat 49 / of_nat 50; of_nat 1] /\
  map (fun p => map (fun c => match c with Some _ => true | None => false end)
                    (snd p))
      (plotted (trace_of train_fifty))
  = [[true; true; false]; [false; false; true]].
Proof. repeat split; vm_compute; reflexivity. Qed.

(** With a training iterator that never yields a batch, [train_ch5] ends
    at the first [print]. *)
Example train_ch5_over_nothing :
  outcome_of train_nothing
  = Err (Python (UnboundLocalError "train_loss")).
Proof. vm_compute. reflexivity. Qed.

(** C5 (as stated): the accumulator is not what is read at the end of an
    epoch.  At the end of a second epoch without a batch the accumulator
    holds zeros, of which there is no rate, as dividing them raises, and
    [train_loss] is the rate of the first epoch. *)
Lemma rates_not_read_at_epoch_end :
  outcome_of loop_one_shot = Ok (toy_locals_of unassigned loop_one_shot) /\
  option_map data (metric (toy_locals_of unassigned loop_one_shot))
  = Some [0; 0; 0] /\
  train_loss (toy_locals_of unassigned loop_one_shot)
  = Some ((0 + of_nat 4 * (1 # 4) + of_nat 2 * (1 # 4))
          / (0 + of_nat 4 + of_nat 2)) /\
  ~ rates_of [0; 0; 0] (toy_locals_of unassigned loop_one_shot) /\
  (truediv 0 0 : toy_prog Q) = Raise ZeroDivisionError.
Proof.
  split; [vm_compute; reflexivity|]. split; [vm_compute; reflexivity|].
  split; [vm_compute; reflexivity|]. split; [|reflexivity].
  intros (a & b & c & Hs & Hc & _). injection Hs as <- <- <-.
  vm_compute in Hc. discriminate Hc.
Qed.

(** C6 (as stated): no printed line holds the loss, the two accuracies
    and the throughput.  A completed [train_ch5] prints two lines, of
    three numbers and of one. *)
Lemma summary_takes_two_lines :
  outcome_of train_demo = Ok tt /\
  map (fun l => List.length (floats_of l)) (printed (trace_of train_demo))
  = [3; 1]%nat /\
  ~ (exists l, In l (printed (trace_of train_demo)) /\
               List.length (floats_of l) = 4%nat).
Proof.
  split; [vm_compute; reflexivity|]. split; [vm_compute; reflexivity|].
  intros (l & Hin & Hlen). vm_compute in Hin.
  destruct Hin as [<-|[<-|[]]]; vm_compute in Hlen; discriminate Hlen.
Qed.

(** C9 (as stated): [train_ch5] completes although the pass of the final
    epoch over the training iterator yields no batch. *)
Lemma last_epoch_without_a_batch :
  outcome_of train_one_shot = Ok tt /\
  passes is_train (trace_of train_one_shot) = [[batch 4; batch 2]; []].
Proof. split; vm_compute; reflexivity. Qed.

(** C10 (as stated): the epochs process 1, 3 and 2 examples, and the
    printed throughput is the overall number of examples per second. *)
Lemma throughput_right_with_uneven_epochs :
  outcome_of train_uneven = Ok tt /\
  examples_of (passes is_train (trace_of train_uneven)) = [1; 3; 2]%nat /\
  exists tp,
    List.last (printed (trace_of train_uneven)) (Args [])
    = Format "%.1f exampes/sec on %s" [PFloat tp; PCtx (gpu 0)] /\
    tp == of_nat (1 + 3 + 2) / measured_time (trace_of train_uneven).
Proof.
  split; [vm_compute; reflexivity|]. split; [vm_compute; reflexivity|].
  exists (6 # 4). split; vm_compute; reflexivity.
Qed.

(** Witness of X4: two test batches, with 2 of 4 and 1 of 2 predictions
    right. *)
Lemma evaluate_accuracy_gpu_in_unit_interval_witness :
  accuracy_results shape (trace_of eval_demo)
  = [(of_nat 2, 4%nat); (of_nat 1, 2%nat)] /\
  0 <= 3 # 6 <= 1.
Proof.
  split; [vm_compute; reflexivity|].
  refine (evaluate_accuracy_gpu_in_unit_interval
            shape framework net test_data None (world [] [[4; 2]]%nat)
            (w' := snd (fst eval_demo)) (r := 3 # 6)
            (t := trace_of eval_demo) _ _).
  - vm_compute. reflexivity.
  - vm_compute. reflexivity.
Defined.

(** Witness of X3: the two lines of a completed run come after both
    epochs; the run that fails in its second batch printed nothing. *)
Lemma train_ch5_prints_at_the_end_witness :
  printed (trace_of train_failing) = [] /\
  printed (trace_of train_demo) <> [] /\
  exists pre post,
    trace_of train_demo = pre ++ post /\ printed pre = [] /\
    count is_test_record pre = 2%nat /\ forallb is_print post = true.
Proof.
  split; [vm_compute; reflexivity|].
  assert (Hp : printed (trace_of train_demo) <> []).
  { vm_compute. discriminate. }
  split; [exact Hp|].
  refine (train_ch5_prints_at_the_end
            shape framework net train_data test_data 2 (9 # 10) (gpu 0)
            (world [[4; 2]; [3]]%nat [[4]; [4]]%nat)
            (w' := snd (fst train_demo)) (r := Ok tt)
            (t := trace_of train_demo) _ Hp).
  vm_compute. reflexivity.
Defined.

(** Witness of X5: trained on [cpu(0)] while the parameters report
    [gpu(0)], the two training batches go to the CPU and the test batch to
    the GPU. *)
Lemma test_batches_go_to_the_parameters_device_witness :
  devices (trace_of train_on_cpu)
  = [cpu 0; cpu 0; cpu 0; cpu 0; gpu 0; gpu 0] /\
  count is_list_ctx (trace_of train_on_cpu) = 1%nat.
Proof.
  split; [vm_compute; reflexivity|].
  destruct (test_batches_go_to_the_parameters_device
              shape framework net train_data test_data 1 (9 # 10) (cpu 0)
              (world [[4; 2]]%nat [[4]]%nat)
              (w' := snd (fst train_on_cpu)) (u := tt)
              (t := trace_of train_on_cpu))
    as (loss & ps & trainer & animator & t0 & eps & L & A & T & tp
        & _ & _ & _ & Hc & _).
  - vm_compute. reflexivity.
  - exact Hc.
Defined.


(** Witness of X11: after the two batches of the epoch, [train_loss] is
    the loss of both divided by the examples of both. *)
Lemma rates_are_running_averages_witness :
  train_loss (toy_locals_of stale epoch_demo)
  = Some ((0 + of_nat 4 * (1 # 4) + of_nat 2 * (1 # 4))
          / (0 + of_nat 4 + of_nat 2)) /\
  exists steps : list (@train_step NDArray),
    train_loss (toy_locals_of stale epoch_demo)
    = fold_left (fun _ s => Some (t_loss_rate s)) steps None /\
    forall k s,
      nth_error steps k = Some s ->
      t_loss_rate s
      = sum_floats (map (@t_l_sum _) (firstn (S k) steps))
        / sum_floats (map (@t_examples _) (firstn (S k) steps)).
Proof.
  split; [vm_compute; reflexivity|].
  destruct (rates_are_running_averages
              shape framework net train_data test_data (gpu 0) tt tt tt
              stale (st' := toy_locals_of stale epoch_demo) 0
              (world [[4; 2]]%nat [[4]]%nat)
              (w' := snd (fst epoch_demo)) (t := trace_of epoch_demo))
    as (steps & rest & _ & _ & Hl & _ & Hrates).
  - vm_compute. reflexivity.
  - exists steps. split; [exact Hl|].
    intros k s Hk. exact (proj1 (proj2 (Hrates k s Hk))).
Defined.


(** Witness of X9: the test accuracy of the second epoch, 2 of 4, is
    printed and is the last point plotted, at 2. *)
Lemma summary_test_accuracy_is_the_last_witness :
  List.last (plotted (trace_of train_demo)) (0, [])
  = (of_nat 2, [None; None; Some ((0 + of_nat 2) / (0 + of_nat 4))]) /\
  exists L A T tp,
    printed (trace_of train_demo)
    = [ Format "loss %.3f, train acc %.3f, test acc %.3f"
               [PFloat L; PFloat A; PFloat T];
        Format "%.1f exampes/sec on %s" [PFloat tp; PCtx (gpu 0)] ] /\
    List.last (plotted (trace_of train_demo)) (0, [])
    = (of_nat 2, [None; None; Some T]).
Proof.
  split; [vm_compute; reflexivity|].
  destruct (summary_test_accuracy_is_the_last
              shape framework net train_data test_data 2 (9 # 10) (gpu 0)
              (world [[4; 2]; [3]]%nat [[4]; [4]]%nat)
              (w' := snd (fst train_demo)) (u := tt)
              (t := trace_of train_demo))
    as (loss & ps & trainer & animator & t0 & before & last & L & A & T
        & tp & _ & Hp & _ & Hl).
  - vm_compute. reflexivity.
  - exists L, A, T, tp. split; [exact Hp|exact Hl].
Defined.

(** Witness of X10: an epoch whose first batch holds no example ends at
    the optimizer step, which the framework refuses; the epoch over
    batches of 4 and 2 examples completes. *)
Lemma first_batch_has_an_example_witness :
  (step_sizes (trace_of epoch_no_example) = [0%nat] /\
   outcome_of epoch_no_example = Err (Framework "ZeroDivisionError") /\
   ((exists e, outcome_of epoch_no_example = Err (Framework e)) \/
    outcome_of epoch_no_example = Err (Python ZeroDivisionError))) /\
  (step_sizes (trace_of epoch_demo) = [4; 2]%nat /\
   match step_sizes (trace_of epoch_demo) with
   | [] => True
   | n :: _ => (0 < n)%nat
   end).
Proof.
  split; (split; [vm_compute; reflexivity|]).
  - split; [vm_compute; reflexivity|].
    refine (proj1 (first_batch_has_an_example
                     shape framework net train_data test_data (gpu 0)
                     tt tt tt)
                  unassigned 0%nat (world [[0; 4]]%nat [[4]]%nat)
                  (outcome_of epoch_no_example)
                  (snd (fst epoch_no_example)) (trace_of epoch_no_example)
                  _ _).
    + vm_compute. reflexivity.
    + vm_compute. reflexivity.
  - refine (proj2 (first_batch_has_an_example
                     shape framework net train_data test_data (gpu 0)
                     tt tt tt)
                  stale (toy_locals_of stale epoch_demo) 0%nat
                  (world [[4; 2]]%nat [[4]]%nat)
                  (snd (fst epoch_demo)) (trace_of epoch_demo) _).
    vm_compute. reflexivity.
Defined.


(** Witness of X12: the cells on the small framework. *)
Lemma notebook_top_to_bottom_witness :
  notebook_demo = (Ok tt, snd (fst notebook_demo), trace_of notebook_demo) /\
  initializations (trace_of notebook_demo)
  = [(false, None, None); (true, Some (gpu 0), Some Xavier)] /\
  List.length (printed (trace_of notebook_demo)) = 9%nat /\
  count is_test_record (trace_of notebook_demo) = 10%nat.
Proof.
  split; [vm_compute; reflexivity|]. split; [vm_compute; reflexivity|].
  destruct (notebook_top_to_bottom
              shape framework
              (world (repeat [4; 2]%nat 10) (repeat [4]%nat 10))
              (w' := snd (fst notebook_demo)) (u := tt)
              (t := trace_of notebook_demo))
    as (X0 & steps & train_iter & test_iter & try_gpu & w1 & w2 & t_train
        & _ & _ & _ & _ & _ & Hn & Hc).
  - vm_compute. reflexivity.
  - split; assumption.
Defined.

End DemoFacts.
